(** * Aave health-factor notifier: the alert decision engine

    A shallow embedding of [src/main.ts] and [src/environment.ts]:
    the classifier [getStatusFromHealth], the alert decision
    [getAlertTrigger] with its latch [warningWasSent], the baseline
    [previousStatus] kept by [getAlertMessage], the formatters, the
    [status] command and the poll loop [checkHealth].

    Numbers are [decimal.js] values.  A finite decimal is kept as an
    integer coefficient and a count of fractional digits; comparisons
    are exact, [minus] rounds its result to [Decimal.precision = 20]
    significant digits with [ROUND_HALF_UP] (the library's defaults,
    which the program never changes), [negated] is exact and
    [toFixed] rounds half-up to the requested places.  The
    non-finite values of the library (NaN, the infinities) and its
    exponent limits are outside the model: health factors, net worth
    and thresholds are decimal numbers. *)

From Stdlib Require Import ZArith QArith Bool List Lia.
From Stdlib Require Import Strings.String Strings.Ascii Numbers.DecimalString.
From Stdlib Require Import QArith.Qabs Numbers.DecimalN.
Import ListNotations.

Local Open Scope Z_scope.

(** ** decimal.js *)

(** [coef / 10 ^ scale]. *)
Record Decimal : Type := mkDecimal { coef : Z; scale : nat }.

Fixpoint pow10 (n : nat) : positive :=
  match n with
  | O => 1%positive
  | S k => (10 * pow10 k)%positive
  end.

(** The number a [Decimal] denotes. *)
Definition DtoQ (d : Decimal) : Q := Qmake (coef d) (pow10 (scale d)).

(** [new Decimal(n)] for an integer literal. *)
Definition ofZ (n : Z) : Decimal := mkDecimal n 0.

(** [x.cmp(y)]: exact comparison of the two values. *)
Definition cmp (x y : Decimal) : comparison :=
  (coef x * Zpos (pow10 (scale y))) ?= (coef y * Zpos (pow10 (scale x))).

(** [x.greaterThanOrEqualTo(y)] *)
Definition greaterThanOrEqualTo (x y : Decimal) : bool :=
  match cmp x y with
  | Lt => false
  | _ => true
  end.

(** [x.gt(y)] *)
Definition gt (x y : Decimal) : bool :=
  match cmp x y with
  | Gt => true
  | _ => false
  end.

(** [x.negated()]: exact. *)
Definition negated (x : Decimal) : Decimal := mkDecimal (- coef x) (scale x).

(** [Decimal.precision], never reconfigured by the program. *)
Definition precision : nat := 20.

(** How many low digits of the magnitude [n] lie beyond [precision]
    significant digits. *)
Fixpoint excess_digits (fuel : nat) (n : Z) : nat :=
  match fuel with
  | O => O
  | S f => if n <? Zpos (pow10 precision) then O
           else S (excess_digits f (n / 10))
  end.

(** [finalise(x, precision, ROUND_HALF_UP)]: keep [precision]
    significant digits, nearest neighbour, ties away from zero. *)
Definition finalise (x : Decimal) : Decimal :=
  let n := Z.abs (coef x) in
  match excess_digits (S (Z.to_nat (Z.log2 n))) n with
  | O => x
  | S k' as k =>
      let unit := Zpos (pow10 k) in
      let q := Z.sgn (coef x) * ((n + unit / 2) / unit) in
      if (k <=? scale x)%nat
      then mkDecimal q (scale x - k)
      else mkDecimal (q * Zpos (pow10 (k - scale x))) 0
  end.

(** The difference before rounding, on the common scale. *)
Definition minus_exact (x y : Decimal) : Decimal :=
  let s := Nat.max (scale x) (scale y) in
  mkDecimal (coef x * Zpos (pow10 (s - scale x))
             - coef y * Zpos (pow10 (s - scale y))) s.

(** [x.minus(y)]: the difference rounded to [precision] significant
    digits. *)
Definition minus (x y : Decimal) : Decimal := finalise (minus_exact x y).

(** ** environment.ts *)

Record Environment : Type := mkEnvironment {
  CRITICAL_LEVEL : Decimal;
  CRITITAL_DELTA : Decimal;
  WARNING_DELTA : Decimal;
  WARNING_LEVEL : Decimal;
  TELEGRAM_BOT_CHAT_ID : string
}.

(** ** main.ts: classifier and alert decision *)

Record UserStatus : Type := mkUserStatus {
  healthFactor : option Decimal;
  netWorth : Decimal
}.

Inductive Status : Type := GOOD | WARNING | CRITICAL.

Definition getStatusFromHealth (environment : Environment) (health : Decimal)
  : Status :=
  if greaterThanOrEqualTo health (WARNING_LEVEL environment) then GOOD
  else if greaterThanOrEqualTo health (CRITICAL_LEVEL environment) then WARNING
  else CRITICAL.

Record AlertContext : Type := mkAlertContext {
  ctx_previousStatus : UserStatus;
  ctx_status : UserStatus
}.

(** The five trigger texts returned by [getAlertTrigger]. *)
Definition NoLongerComputable : string := "no health factor now".
Definition CriticalLevel : string := "critical health factor".
Definition WarningLevel : string := "warning health factor".
Definition WarningDelta : string := "warning delta of health factor".
Definition CriticalDelta : string := "critical delta of health factor".

(** [getAlertTrigger] reads and writes the module-level variable
    [warningWasSent]; here the variable is passed in and its value at
    return is passed out.  A [Decimal] object is truthy whatever its
    value, so [!x.healthFactor] holds exactly when the field is
    [null]. *)
Definition getAlertTrigger (environment : Environment)
    (context : AlertContext) (warningWasSent : bool)
  : option string * bool :=
  match healthFactor (ctx_status context),
        healthFactor (ctx_previousStatus context) with
  | None, Some _ => (Some NoLongerComputable, warningWasSent)
  | None, None => (None, warningWasSent)
  | Some _, None => (None, warningWasSent)
  | Some current, Some previous =>
      match getStatusFromHealth environment current with
      | CRITICAL => (Some CriticalLevel, warningWasSent)
      | WARNING =>
          if warningWasSent then (None, warningWasSent)
          else (Some WarningLevel, true)
      | GOOD =>
          let difference := minus current previous in
          if gt difference (negated (WARNING_DELTA environment))
          then (None, false)
          else if gt difference (negated (CRITITAL_DELTA environment))
          then (Some WarningDelta, false)
          else (Some CriticalDelta, false)
      end
  end.

(** ** Strings *)

Local Open Scope string_scope.

(** The line feed of a template literal. *)
Definition nl : string := String (ascii_of_nat 10) EmptyString.

(** [String.raw`\.`] *)
Definition escaped_dot : string := "\.".

Definition is_dot (c : ascii) : bool := Ascii.eqb c ".".

(** [s.replace('.', r)]: the first occurrence only. *)
Fixpoint replace_dot (r s : string) : string :=
  match s with
  | EmptyString => EmptyString
  | String c rest => if is_dot c then r ++ rest else String c (replace_dot r rest)
  end.

(** [s.replaceAll('.', r)] *)
Fixpoint replaceAll_dot (r s : string) : string :=
  match s with
  | EmptyString => EmptyString
  | String c rest =>
      if is_dot c then r ++ replaceAll_dot r rest
      else String c (replaceAll_dot r rest)
  end.

(** A string is truthy when it is not empty. *)
Definition truthy (s : string) : bool :=
  match s with
  | EmptyString => false
  | String _ _ => true
  end.

Definition digit_char (d : Z) : ascii := ascii_of_nat (48 + Z.to_nat d).

(** The [dp] digits after the point, leading zeros kept. *)
Fixpoint fraction_digits (dp : nat) (r : Z) : string :=
  match dp with
  | O => EmptyString
  | S k => String (digit_char (r / Zpos (pow10 k))%Z)
                  (fraction_digits k (r mod Zpos (pow10 k))%Z)
  end.

Definition integer_digits (n : Z) : string :=
  NilEmpty.string_of_uint (N.to_uint (Z.to_N n)).

(** [|x|] in units of [10 ^ -dp], rounded half-up. *)
Definition scaled_magnitude (dp : nat) (x : Decimal) : Z :=
  let n := Z.abs (coef x) in
  if (scale x <=? dp)%nat then (n * Zpos (pow10 (dp - scale x)))%Z
  else let unit := Zpos (pow10 (scale x - dp)) in ((n + unit / 2) / unit)%Z.

(** [x.toFixed(dp)]: normal notation with exactly [dp] places; the
    sign is that of [x] before rounding. *)
Definition toFixed (dp : nat) (x : Decimal) : string :=
  let q := scaled_magnitude dp x in
  let unit := Zpos (pow10 dp) in
  (if (coef x <? 0)%Z then "-" else EmptyString)
  ++ integer_digits (q / unit)%Z
  ++ match dp with
     | O => EmptyString
     | S _ => "." ++ fraction_digits dp (q mod unit)%Z
     end.

(** ** main.ts: formatters *)

Definition getStatusString (environment : Environment) (status : UserStatus)
  : string :=
  match healthFactor status with
  | None => "N/A"
  | Some health =>
      match getStatusFromHealth environment health with
      | CRITICAL => "⛔️ Critical ⛔️"
      | GOOD => "✅ Good ✅"
      | WARNING => "⚠️ Warning ⚠️"
      end
  end.

(** [d?.toFixed(2).replace('.', String.raw`\.`) ?? 'N/A'] *)
Definition healthText (h : option Decimal) : string :=
  match h with
  | Some d => replace_dot escaped_dot (toFixed 2 d)
  | None => "N/A"
  end.

(** [d.toFixed(2).replace('.', String.raw`\.`)] *)
Definition amountText (d : Decimal) : string :=
  replace_dot escaped_dot (toFixed 2 d).

(** The template literal of [getStatusMessage], applied to the
    fetched sample. *)
Definition formatStatus (environment : Environment) (status : UserStatus)
  : string :=
  "*" ++ getStatusString environment status ++ "*" ++ nl ++ nl
  ++ "Health factor: *" ++ healthText (healthFactor status) ++ "*" ++ nl
  ++ "Net worth: *" ++ amountText (netWorth status) ++ "$*".

(** [getDifferenceStatusMessage]: its caller always passes a sample,
    so [status ??= await getUserStatus()] never fetches. *)
Definition getDifferenceStatusMessage (environment : Environment)
    (status previousStatus : UserStatus) : string :=
  "*" ++ getStatusString environment status ++ "*" ++ nl ++ nl
  ++ "Health factor: *" ++ healthText (healthFactor previousStatus)
  ++ "* ➡️ *" ++ healthText (healthFactor status) ++ "*" ++ nl
  ++ "Net worth: *" ++ amountText (netWorth previousStatus)
  ++ "$* ➡️ *" ++ amountText (netWorth status) ++ "$*".

(** [getErrorMessage]; [error] is the text [`${error}`] renders. *)
Definition getErrorMessage (error flow : string) : string :=
  "📛 Error on `" ++ flow ++ "` 📛" ++ nl ++ "```" ++ nl ++ error ++ "```".

Definition alertText (environment : Environment) (alertTrigger : string)
    (status oldPreviousStatus : UserStatus) : string :=
  "‼️ ALERT ‼️" ++ nl ++ "Trigger: `"
  ++ replaceAll_dot escaped_dot alertTrigger ++ "`" ++ nl ++ nl
  ++ getDifferenceStatusMessage environment status oldPreviousStatus.

(** ** The process and its collaborators

    What the program does to the outside is kept in a [World]: the
    answers the Aave client and the Telegram transport will give, in
    call order, what has been delivered and logged, the pending
    timer, and the two module-level variables of the engine. *)

Inductive Outcome (A : Type) : Type :=
| Returned (a : A)
| Thrown (error : string).
Arguments Returned {A} a.
Arguments Thrown {A} error.

Record World : Type := mkWorld {
  marketStates : nat -> Outcome UserStatus;
  fetched : nat;
  transport : nat -> option string;
  sendCalls : nat;
  delivered : list (string * string);
  unhandled : list string;
  logged : list string;
  pendingTimers : nat;
  previousStatus : UserStatus;
  warningWasSent : bool
}.

(** An awaited computation: it returns or throws, and changes the
    world. *)
Definition M (A : Type) : Type := World -> Outcome A * World.

Definition ret {A : Type} (a : A) : M A := fun w => (Returned a, w).

Definition bind {A B : Type} (m : M A) (k : A -> M B) : M B :=
  fun w =>
    match m w with
    | (Returned a, w') => k a w'
    | (Thrown e, w') => (Thrown e, w')
    end.

(** [try { body } catch (error) { handler(error) }] *)
Definition tryCatch {A : Type} (body : M A) (handler : string -> M A) : M A :=
  fun w =>
    match body w with
    | (Returned a, w') => (Returned a, w')
    | (Thrown e, w') => handler e w'
    end.

Declare Scope world_scope.
Delimit Scope world_scope with world.
Notation "x <- m ;; k" := (bind m (fun x => k))
  (at level 61, m at next level, right associativity) : world_scope.
Notation "m ;;; k" := (bind m (fun _ => k))
  (at level 61, right associativity) : world_scope.
Local Open Scope world_scope.

Definition set_engine (p : UserStatus) (l : bool) (w : World) : World :=
  mkWorld (marketStates w) (fetched w) (transport w) (sendCalls w)
          (delivered w) (unhandled w) (logged w) (pendingTimers w) p l.

Definition set_previousStatus (p : UserStatus) : M unit :=
  fun w => (Returned tt, set_engine p (warningWasSent w) w).

Definition set_warningWasSent (l : bool) : M unit :=
  fun w => (Returned tt, set_engine (previousStatus w) l w).

Definition get_previousStatus : M UserStatus :=
  fun w => (Returned (previousStatus w), w).

Definition get_warningWasSent : M bool :=
  fun w => (Returned (warningWasSent w), w).

(** [getUserStatus]: one call of [userMarketState]; an error result
    is thrown. *)
Definition getUserStatus : M UserStatus :=
  fun w =>
    (marketStates w (fetched w),
     mkWorld (marketStates w) (S (fetched w)) (transport w) (sendCalls w)
             (delivered w) (unhandled w) (logged w) (pendingTimers w)
             (previousStatus w) (warningWasSent w)).

(** [await bot.telegram.sendMessage(chat, text, ...)] *)
Definition sendMessage (chat text : string) : M unit :=
  fun w =>
    match transport w (sendCalls w) with
    | None =>
        (Returned tt,
         mkWorld (marketStates w) (fetched w) (transport w) (S (sendCalls w))
                 (delivered w ++ [(chat, text)]) (unhandled w) (logged w)
                 (pendingTimers w) (previousStatus w) (warningWasSent w))
    | Some e =>
        (Thrown e,
         mkWorld (marketStates w) (fetched w) (transport w) (S (sendCalls w))
                 (delivered w) (unhandled w) (logged w)
                 (pendingTimers w) (previousStatus w) (warningWasSent w))
    end.

(** [context.sendMessage(text, ...)] without [await]: a rejection
    reaches no handler of the caller. *)
Definition sendMessage_detached (chat text : string) : M unit :=
  fun w =>
    match sendMessage chat text w with
    | (Returned _, w') => (Returned tt, w')
    | (Thrown e, w') =>
        (Returned tt,
         mkWorld (marketStates w') (fetched w') (transport w') (sendCalls w')
                 (delivered w') (unhandled w' ++ [e]) (logged w')
                 (pendingTimers w') (previousStatus w') (warningWasSent w'))
    end.

(** [logger.warn(error)] *)
Definition logger_warn (e : string) (w : World) : World :=
  mkWorld (marketStates w) (fetched w) (transport w) (sendCalls w)
          (delivered w) (unhandled w) (logged w ++ [e])
          (pendingTimers w) (previousStatus w) (warningWasSent w).

(** [setTimeout(() => checkHealth().catch(...), RECHECK_INTERVAL)] *)
Definition setTimeout : M unit :=
  fun w =>
    (Returned tt,
     mkWorld (marketStates w) (fetched w) (transport w) (sendCalls w)
             (delivered w) (unhandled w) (logged w)
             (S (pendingTimers w)) (previousStatus w) (warningWasSent w)).

(** ** main.ts: the effectful functions *)

Definition getStatusMessage (environment : Environment) : M string :=
  status <- getUserStatus ;;
  ret (formatStatus environment status).

Definition getAlertMessage (environment : Environment) : M (option string) :=
  status <- getUserStatus ;;
  previous <- get_previousStatus ;;
  latch <- get_warningWasSent ;;
  let '(alertTrigger, latch') :=
    getAlertTrigger environment (mkAlertContext previous status) latch in
  set_warningWasSent latch' ;;;
  let oldPreviousStatus := previous in
  set_previousStatus status ;;;
  match alertTrigger with
  | Some trigger =>
      if truthy trigger
      then ret (Some (alertText environment trigger status oldPreviousStatus))
      else ret None
  | None => ret None
  end.

(** The handler of [bot.command('status', ...)], for a request from
    [chat]. *)
Definition statusCommand (environment : Environment) (chat : string) : M unit :=
  tryCatch
    (text <- getStatusMessage environment ;;
     sendMessage_detached chat text)
    (fun error => sendMessage_detached chat (getErrorMessage error "status")).

Definition checkHealth (environment : Environment) : M unit :=
  tryCatch
    (alertMessage <- getAlertMessage environment ;;
     match alertMessage with
     | Some text =>
         if truthy text
         then sendMessage (TELEGRAM_BOT_CHAT_ID environment) text
         else ret tt
     | None => ret tt
     end)
    (fun error =>
       sendMessage (TELEGRAM_BOT_CHAT_ID environment)
                   (getErrorMessage error "check")) ;;;
  setTimeout.

(** [checkHealth().catch(error => logger.warn(error))]: one tick. *)
Definition tick (environment : Environment) (w : World) : World :=
  match checkHealth environment w with
  | (Returned _, w') => w'
  | (Thrown e, w') => logger_warn e w'
  end.

(** The timer fires: the pending callback, if any, runs one tick. *)
Definition fire (environment : Environment) (w : World) : World :=
  match pendingTimers w with
  | O => w
  | S n =>
      tick environment
        (mkWorld (marketStates w) (fetched w) (transport w) (sendCalls w)
                 (delivered w) (unhandled w) (logged w) n
                 (previousStatus w) (warningWasSent w))
  end.

(** [startCheckingHealth].  The first [checkHealth()] is started and
    suspends on its fetch; the start-up note is handed to the
    transport at once, before any delivery of that tick, and a
    rejection of it is logged.  Deliveries are numbered in call order,
    so the note comes first. *)
Definition startCheckingHealth (environment : Environment) (w : World) : World :=
  let w1 :=
    match sendMessage (TELEGRAM_BOT_CHAT_ID environment) "ℹ️ Bot started" w with
    | (Returned _, w') => w'
    | (Thrown e, w') => logger_warn e w'
    end in
  tick environment w1.

(** The process after [n] firings of the timer. *)
Fixpoint run (environment : Environment) (n : nat) (w : World) : World :=
  match n with
  | O => startCheckingHealth environment w
  | S k => fire environment (run environment k w)
  end.

(** The module-level initial values. *)
Definition initialPreviousStatus : UserStatus :=
  mkUserStatus (Some (ofZ 0)) (ofZ 0).

Definition initialWorld (states : nat -> Outcome UserStatus)
    (sends : nat -> option string) : World :=
  mkWorld states 0 sends 0 [] [] [] 0 initialPreviousStatus false.

(** ** The engine as a transition function

    What one call of [getAlertMessage] does to the two engine
    variables once the sample is fetched: the decision is taken
    against the stored baseline, then the baseline is replaced. *)

Definition EngineState : Type := (UserStatus * bool)%type.

Definition engine (w : World) : EngineState :=
  (previousStatus w, warningWasSent w).

Definition initialEngine : EngineState := (initialPreviousStatus, false).

Definition evaluate (environment : Environment) (st : EngineState)
    (current : UserStatus) : option string * EngineState :=
  let '(alertTrigger, latch') :=
    getAlertTrigger environment (mkAlertContext (fst st) current) (snd st) in
  (alertTrigger, (current, latch')).

(** The triggers of a run of samples, in order. *)
Fixpoint triggers (environment : Environment) (st : EngineState)
    (samples : list UserStatus) : list (option string) :=
  match samples with
  | [] => []
  | s :: rest =>
      let '(t, st') := evaluate environment st s in
      t :: triggers environment st' rest
  end.

(** The engine state after a run of samples. *)
Fixpoint engine_after (environment : Environment) (st : EngineState)
    (samples : list UserStatus) : EngineState :=
  match samples with
  | [] => st
  | s :: rest => engine_after environment (snd (evaluate environment st s)) rest
  end.

(** The health factor of the sample is not [null]. *)
Definition present (s : UserStatus) : bool :=
  match healthFactor s with
  | Some _ => true
  | None => false
  end.

(** The sample has a health factor and it classifies as [st]. *)
Definition classifies (environment : Environment) (st : Status)
    (s : UserStatus) : bool :=
  match healthFactor s with
  | Some h =>
      match getStatusFromHealth environment h, st with
      | GOOD, GOOD | WARNING, WARNING | CRITICAL, CRITICAL => true
      | _, _ => false
      end
  | None => false
  end.

(** What a computation leaves alone: the timer and the log. *)
Definition quiet {A : Type} (m : M A) : Prop :=
  forall w, pendingTimers (snd (m w)) = pendingTimers w
            /\ logged (snd (m w)) = logged w.

(** ** Reading the rendered text *)

Definition is_backslash (c : ascii) : bool := Ascii.eqb c "\".

Fixpoint no_dot (s : string) : bool :=
  match s with
  | EmptyString => true
  | String c rest => negb (is_dot c) && no_dot rest
  end.

(** Every point of [s] comes right after a backslash;
    [after_backslash] tells whether the character before [s] was
    one. *)
Fixpoint dots_escaped_from (after_backslash : bool) (s : string) : bool :=
  match s with
  | EmptyString => true
  | String c rest =>
      if is_dot c then after_backslash && dots_escaped_from false rest
      else dots_escaped_from (is_backslash c) rest
  end.

Definition dots_escaped (s : string) : bool := dots_escaped_from false s.

Definition is_digit (c : ascii) : bool :=
  let n := nat_of_ascii c in ((48 <=? n) && (n <=? 57))%nat.

Fixpoint all_digits (s : string) : bool :=
  match s with
  | EmptyString => true
  | String c rest => is_digit c && all_digits rest
  end.

(** ** Concrete configurations and samples *)

(** The decimal [c / 10 ^ s]. *)
Definition dec (c : Z) (s : nat) : Decimal := mkDecimal c s.

(** The defaults of [environment.ts]. *)
Definition defaultEnvironment : Environment :=
  mkEnvironment (dec 17 1) (dec 1 0) (dec 5 1) (dec 25 1) "operator".

(** Levels low enough for [2.2] and [1.9] to be GOOD, default deltas. *)
Definition lowLevelEnvironment : Environment :=
  mkEnvironment (dec 10 1) (dec 1 0) (dec 5 1) (dec 15 1) "operator".

(** Deltas in the other order: the warning delta is the larger. *)
Definition swappedDeltaEnvironment : Environment :=
  mkEnvironment (dec 17 1) (dec 5 1) (dec 1 0) (dec 2 0) "operator".

Definition sample (h : Decimal) : UserStatus := mkUserStatus (Some h) (ofZ 0).

Definition noDebt : UserStatus := mkUserStatus None (ofZ 0).

(** [3.4999999999999999999999], twenty-three significant digits. *)
Definition longHealth : Decimal := dec 34999999999999999999999 22.

(** The start-up note is delivered; then the fetch fails and so does
    the delivery of the error note.  Every later delivery would
    work. *)
Definition outageWorld : World :=
  initialWorld (fun _ => Thrown "fetch failed")
               (fun n => match n with
                         | 1%nat => Some "delivery failed"
                         | _ => None
                         end).

(** ** Vocabulary of the further properties *)

(** Whatever escaped text follows [s], the whole has every point
    escaped. *)
Definition well_escaped (s : string) : Prop :=
  forall (b : bool) (t : string),
    (forall b', dots_escaped_from b' t = true) ->
    dots_escaped_from b (s ++ t) = true.

(** The number a run of decimal digits denotes. *)
Definition read_number (s : string) : option N :=
  option_map N.of_uint (NilEmpty.uint_of_string s).

(** The sign [toFixed] puts in front. *)
Definition sign_text (x : Decimal) : string :=
  if (coef x <? 0)%Z then "-" else EmptyString.

(** The message one evaluation hands to the operator, if any. *)
Definition alert_of (environment : Environment) (st : EngineState)
    (s : UserStatus) : list (string * string) :=
  match fst (evaluate environment st s) with
  | Some t => [(TELEGRAM_BOT_CHAT_ID environment,
                alertText environment t s (fst st))]
  | None => []
  end.

(** The alert messages of a run of samples, in order. *)
Fixpoint alerts (environment : Environment) (st : EngineState)
    (samples : list UserStatus) : list (string * string) :=
  match samples with
  | [] => []
  | s :: rest =>
      (alert_of environment st s
       ++ alerts environment (snd (evaluate environment st s)) rest)%list
  end.

(** The delivery of the error note of this tick will be rejected:
    after a failed fetch, or after a rejected alert. *)
Definition recovery_fails (environment : Environment) (w : World) : Prop :=
  (exists e1 e2,
      marketStates w (fetched w) = Thrown e1
      /\ transport w (sendCalls w) = Some e2)
  \/ (exists s t e1 e2,
        marketStates w (fetched w) = Returned s
        /\ fst (evaluate environment (engine w) s) = Some t
        /\ transport w (sendCalls w) = Some e1
        /\ transport w (S (sendCalls w)) = Some e2).

(** * Properties *)

(** ** The decimal model *)

Section DecimalFacts.

Local Open Scope Z_scope.

Lemma pow10_spec (n : nat) : Zpos (pow10 n) = 10 ^ Z.of_nat n.
Proof.
  induction n as [|n IH].
  - reflexivity.
  - rewrite Nat2Z.inj_succ, Z.pow_succ_r by lia.
    cbn [pow10]. rewrite Pos2Z.inj_mul, IH. reflexivity.
Qed.

Lemma pow10_add (a b : nat) :
  Zpos (pow10 (a + b)) = Zpos (pow10 a) * Zpos (pow10 b).
Proof.
  rewrite !pow10_spec, Nat2Z.inj_add, Z.pow_add_r by lia. reflexivity.
Qed.

Lemma cmp_Qcompare (x y : Decimal) : cmp x y = (DtoQ x ?= DtoQ y)%Q.
Proof. reflexivity. Qed.

Lemma greaterThanOrEqualTo_spec (x y : Decimal) :
  greaterThanOrEqualTo x y = true <-> (DtoQ y <= DtoQ x)%Q.
Proof.
  unfold greaterThanOrEqualTo. rewrite cmp_Qcompare.
  rewrite Qle_alt, <- (Qcompare_antisym (DtoQ x) (DtoQ y)).
  destruct (DtoQ x ?= DtoQ y)%Q; cbn; split; congruence.
Qed.

Lemma greaterThanOrEqualTo_false (x y : Decimal) :
  greaterThanOrEqualTo x y = false <-> (DtoQ x < DtoQ y)%Q.
Proof.
  unfold greaterThanOrEqualTo. rewrite cmp_Qcompare, Qlt_alt.
  destruct (DtoQ x ?= DtoQ y)%Q; split; congruence.
Qed.

Lemma gt_spec (x y : Decimal) : gt x y = true <-> (DtoQ y < DtoQ x)%Q.
Proof.
  unfold gt. rewrite cmp_Qcompare, Qgt_alt.
  destruct (DtoQ x ?= DtoQ y)%Q; split; congruence.
Qed.

Lemma gt_false (x y : Decimal) : gt x y = false <-> (DtoQ x <= DtoQ y)%Q.
Proof.
  unfold gt. rewrite cmp_Qcompare, Qle_alt.
  destruct (DtoQ x ?= DtoQ y)%Q; split; congruence.
Qed.

Lemma negated_spec (x : Decimal) : DtoQ (negated x) = (- DtoQ x)%Q.
Proof. reflexivity. Qed.

Lemma minus_exact_spec (x y : Decimal) :
  (DtoQ (minus_exact x y) == DtoQ x - DtoQ y)%Q.
Proof.
  destruct x as [cx sx], y as [cy sy].
  unfold minus_exact, DtoQ, Qeq, Qminus, Qplus, Qopp; cbn [coef scale Qnum Qden].
  set (s := Nat.max sx sy).
  assert (Hx : s = (sx + (s - sx))%nat) by lia.
  assert (Hy : s = (sy + (s - sy))%nat) by lia.
  rewrite Pos2Z.inj_mul.
  set (dx := (s - sx)%nat) in *. set (dy := (s - sy)%nat) in *.
  assert (Ex : Zpos (pow10 s) = Zpos (pow10 sx) * Zpos (pow10 dx))
    by (rewrite Hx at 1; apply pow10_add).
  assert (Ey : Zpos (pow10 s) = Zpos (pow10 sy) * Zpos (pow10 dy))
    by (rewrite Hy at 1; apply pow10_add).
  transitivity
    ((cx * Zpos (pow10 sy)) * (Zpos (pow10 sx) * Zpos (pow10 dx))
     - (cy * Zpos (pow10 sx)) * (Zpos (pow10 sy) * Zpos (pow10 dy))).
  - ring.
  - rewrite <- Ex, <- Ey. ring.
Qed.

Lemma minus_zero (x : Decimal) : minus x (ofZ 0) = finalise x.
Proof.
  destruct x as [c s]. unfold minus, minus_exact, ofZ; cbn [coef scale].
  rewrite Nat.max_0_r, Nat.sub_diag, Z.mul_0_l, Z.sub_0_r.
  cbn [pow10]. rewrite Z.mul_1_r. reflexivity.
Qed.

Lemma finalise_exact (x : Decimal) :
  Z.abs (coef x) < Zpos (pow10 precision) -> finalise x = x.
Proof.
  intros H. unfold finalise. cbn [excess_digits].
  apply Z.ltb_lt in H. rewrite H. reflexivity.
Qed.

Lemma finalise_nonneg (x : Decimal) : 0 <= coef x -> 0 <= coef (finalise x).
Proof.
  intros H. unfold finalise.
  destruct (excess_digits _ _) as [|k]; [exact H|].
  assert (Hq : 0 <= Z.sgn (coef x)
                    * ((Z.abs (coef x) + Zpos (pow10 (S k)) / 2) / Zpos (pow10 (S k)))).
  { apply Z.mul_nonneg_nonneg.
    - apply Z.sgn_nonneg; exact H.
    - apply Z.div_pos; [|reflexivity].
      apply Z.add_nonneg_nonneg; [apply Z.abs_nonneg|].
      apply Z.div_pos; [apply Pos2Z.is_nonneg | reflexivity]. }
  destruct (S k <=? scale x)%nat; cbn [coef].
  - exact Hq.
  - apply Z.mul_nonneg_nonneg; [exact Hq | apply Pos2Z.is_nonneg].
Qed.

Lemma excess_digits_bound (fuel : nat) :
  forall n, 0 <= n < 2 ^ Z.of_nat fuel ->
            n / Zpos (pow10 (excess_digits fuel n)) < Zpos (pow10 precision).
Proof.
  induction fuel as [|f IH]; intros n [Hn Hf].
  - cbn in *. rewrite Z.div_1_r. lia.
  - cbn [excess_digits].
    destruct (n <? Zpos (pow10 precision)) eqn:E.
    + apply Z.ltb_lt in E. cbn [pow10]. rewrite Z.div_1_r. exact E.
    + change (pow10 (S (excess_digits f (n / 10))))
        with (10 * pow10 (excess_digits f (n / 10)))%positive.
      rewrite Pos2Z.inj_mul, <- Z.div_div by lia.
      apply IH. split; [apply Z.div_pos; lia|].
      rewrite Nat2Z.inj_succ, Z.pow_succ_r in Hf by lia.
      apply Z.div_lt_upper_bound; lia.
Qed.

Lemma excess_digits_least (fuel : nat) :
  forall n k, excess_digits fuel n = S k ->
              Zpos (pow10 precision) <= n / Zpos (pow10 k).
Proof.
  induction fuel as [|f IH]; intros n k E; [discriminate E|].
  cbn [excess_digits] in E.
  destruct (n <? Zpos (pow10 precision)) eqn:Hn; [discriminate E|].
  apply Z.ltb_ge in Hn. injection E as E.
  destruct k as [|k].
  - cbn [pow10]. rewrite Z.div_1_r. exact Hn.
  - change (pow10 (S k)) with (10 * pow10 k)%positive.
    rewrite Pos2Z.inj_mul, <- Z.div_div by lia.
    apply IH, E.
Qed.

Lemma fuel_enough (n : Z) : 0 <= n -> n < 2 ^ Z.of_nat (S (Z.to_nat (Z.log2 n))).
Proof.
  intros Hn. rewrite Nat2Z.inj_succ, Z2Nat.id by apply Z.log2_nonneg.
  destruct (Z.eq_dec n 0) as [->|Hz]; [reflexivity|].
  apply Z.log2_spec. lia.
Qed.

(** [finalise] rounds to the nearest decimal of [precision] digits:
    the result is [sgn * q * 10 ^ k] on the scale of [x], where
    either nothing was dropped, or [q] has exactly [precision] digits
    (or is [10 ^ precision] after a carry), and the value moved by at
    most half a unit of the last kept digit. *)
Lemma finalise_nearest (x : Decimal) :
  exists (k : nat) (q : Z),
    (DtoQ (finalise x)
     == Qmake (Z.sgn (coef x) * q * Zpos (pow10 k)) (pow10 (scale x)))%Q
    /\ 0 <= q <= Zpos (pow10 precision)
    /\ 2 * Z.abs (Z.abs (coef x) - q * Zpos (pow10 k)) <= Zpos (pow10 k)
    /\ (k = O \/ Zpos (pow10 (precision - 1)) <= q).
Proof.
  unfold finalise.
  pose proof (excess_digits_bound _ _
                (conj (Z.abs_nonneg (coef x))
                      (fuel_enough _ (Z.abs_nonneg (coef x))))) as Hb.
  pose proof (excess_digits_least (S (Z.to_nat (Z.log2 (Z.abs (coef x)))))
                (Z.abs (coef x))) as Hl.
  set (n := Z.abs (coef x)) in *.
  destruct (excess_digits _ n) as [|k'] eqn:E.
  - exists O, n. cbn [pow10] in *. rewrite Z.div_1_r in Hb.
    split; [|split; [|split]].
    + rewrite Z.mul_1_r. unfold n. rewrite Z.mul_comm, Z.abs_sgn.
      destruct x; reflexivity.
    + unfold n in *. lia.
    + lia.
    + left; reflexivity.
  - specialize (Hl k' eq_refl).
    set (k := S k') in *. set (u := Zpos (pow10 k)) in *.
    assert (Hu : 0 < u) by reflexivity.
    assert (Hten : u = 10 * Zpos (pow10 k'))
      by (unfold u, k; cbn [pow10]; apply Pos2Z.inj_mul).
    assert (Heven : u = 2 * (u / 2)).
    { rewrite Hten.
      replace (10 * Zpos (pow10 k')) with (Zpos (pow10 k') * 5 * 2) by ring.
      rewrite Z.div_mul by lia. ring. }
    set (q := (n + u / 2) / u).
    assert (Hn : 0 <= n) by apply Z.abs_nonneg.
    pose proof (Z.div_mod (n + u / 2) u ltac:(lia)) as Hdm.
    pose proof (Z.mod_pos_bound (n + u / 2) u Hu) as Hm.
    fold q in Hdm.
    pose proof (Z.div_mod n u ltac:(lia)) as Hdn.
    pose proof (Z.mod_pos_bound n u Hu) as Hmn.
    exists k, q. split; [|split; [|split]].
    + destruct (k <=? scale x)%nat eqn:Ek.
      * apply Nat.leb_le in Ek.
        assert (Hs : Zpos (pow10 (scale x)) = Zpos (pow10 (scale x - k)) * u).
        { unfold u. rewrite <- pow10_add. f_equal. f_equal. lia. }
        unfold DtoQ, Qeq; cbn [coef scale Qnum Qden]. rewrite Hs.
        unfold u. ring.
      * apply Nat.leb_gt in Ek.
        assert (Hk : u = Zpos (pow10 (k - scale x)) * Zpos (pow10 (scale x))).
        { unfold u. rewrite <- pow10_add. f_equal. f_equal. lia. }
        unfold DtoQ, Qeq; cbn [coef scale Qnum Qden].
        change (pow10 0) with 1%positive. fold u. rewrite Hk. ring.
    + split; [apply Z.div_pos; lia|].
      unfold q. apply Z.lt_succ_r. apply Z.div_lt_upper_bound; [lia|].
      assert (n < u * Zpos (pow10 precision)); [|lia].
      assert (n / u <= Zpos (pow10 precision) - 1) by lia.
      nia.
    + fold u. nia.
    + right.
      pose proof (Z.div_mod n (Zpos (pow10 k')) ltac:(lia)) as Hd'.
      pose proof (Z.mod_pos_bound n (Zpos (pow10 k')) eq_refl) as Hm'.
      assert (Hp : Zpos (pow10 precision) = 10 * Zpos (pow10 (precision - 1)))
        by reflexivity.
      assert (Hq : n / u <= q).
      { unfold q. apply Z.div_le_mono; [lia|]. lia. }
      assert (Zpos (pow10 (precision - 1)) <= n / u); [|lia].
      apply Z.div_le_lower_bound; [lia|].
      set (P := Zpos (pow10 (precision - 1))) in *.
      set (v := Zpos (pow10 k')) in *.
      assert (0 < v) by reflexivity.
      nia.
Qed.

End DecimalFacts.

(** ** The classifier *)

Section Classifier.

Variable environment : Environment.

Lemma classify_GOOD (h : Decimal) :
  getStatusFromHealth environment h = GOOD
  <-> (DtoQ (WARNING_LEVEL environment) <= DtoQ h)%Q.
Proof.
  unfold getStatusFromHealth. rewrite <- greaterThanOrEqualTo_spec.
  destruct (greaterThanOrEqualTo h (WARNING_LEVEL environment));
    [tauto|].
  destruct (greaterThanOrEqualTo h (CRITICAL_LEVEL environment));
    split; discriminate.
Qed.

Lemma classify_WARNING (h : Decimal) :
  getStatusFromHealth environment h = WARNING
  <-> (DtoQ (CRITICAL_LEVEL environment) <= DtoQ h
       /\ DtoQ h < DtoQ (WARNING_LEVEL environment))%Q.
Proof.
  unfold getStatusFromHealth.
  rewrite <- greaterThanOrEqualTo_spec, <- greaterThanOrEqualTo_false.
  destruct (greaterThanOrEqualTo h (WARNING_LEVEL environment));
    destruct (greaterThanOrEqualTo h (CRITICAL_LEVEL environment));
    split; try discriminate; try tauto; intros [? ?]; discriminate.
Qed.

Lemma classify_CRITICAL (h : Decimal) :
  getStatusFromHealth environment h = CRITICAL
  <-> (DtoQ h < DtoQ (CRITICAL_LEVEL environment)
       /\ DtoQ h < DtoQ (WARNING_LEVEL environment))%Q.
Proof.
  unfold getStatusFromHealth.
  rewrite <- !greaterThanOrEqualTo_false.
  destruct (greaterThanOrEqualTo h (WARNING_LEVEL environment));
    destruct (greaterThanOrEqualTo h (CRITICAL_LEVEL environment));
    split; try discriminate; try tauto; intros [? ?]; discriminate.
Qed.

End Classifier.

(** C3 - Classifier correctness.  With [criticalLevel < warningLevel],
    every decimal health factor [h] is GOOD exactly when
    [h >= warningLevel], WARNING exactly when
    [criticalLevel <= h < warningLevel] and CRITICAL exactly when
    [h < criticalLevel]; a value equal to a threshold falls into the
    higher band, and the three bands leave no gap.  The classifier is
    a total function of its argument and the two thresholds. *)
Theorem classifier_correct (environment : Environment) (h : Decimal) :
  (DtoQ (CRITICAL_LEVEL environment) < DtoQ (WARNING_LEVEL environment))%Q ->
  (getStatusFromHealth environment h = GOOD
   <-> DtoQ (WARNING_LEVEL environment) <= DtoQ h)%Q
  /\ (getStatusFromHealth environment h = WARNING
      <-> DtoQ (CRITICAL_LEVEL environment) <= DtoQ h
          /\ DtoQ h < DtoQ (WARNING_LEVEL environment))%Q
  /\ (getStatusFromHealth environment h = CRITICAL
      <-> DtoQ h < DtoQ (CRITICAL_LEVEL environment))%Q
  /\ (DtoQ h == DtoQ (WARNING_LEVEL environment)
      -> getStatusFromHealth environment h = GOOD)%Q
  /\ (DtoQ h == DtoQ (CRITICAL_LEVEL environment)
      -> getStatusFromHealth environment h = WARNING)%Q
  /\ (DtoQ (WARNING_LEVEL environment) <= DtoQ h
      \/ (DtoQ (CRITICAL_LEVEL environment) <= DtoQ h
          /\ DtoQ h < DtoQ (WARNING_LEVEL environment))
      \/ DtoQ h < DtoQ (CRITICAL_LEVEL environment))%Q.
Proof.
  intros Hlevels.
  split; [apply classify_GOOD|].
  split; [apply classify_WARNING|].
  split.
  { rewrite classify_CRITICAL. split; [tauto|].
    intros H. split; [exact H|]. eapply Qlt_trans; eassumption. }
  split.
  { intros E. apply classify_GOOD. rewrite E. apply Qle_refl. }
  split.
  { intros E. apply classify_WARNING. rewrite E.
    split; [apply Qle_refl | exact Hlevels]. }
  destruct (Qlt_le_dec (DtoQ h) (DtoQ (WARNING_LEVEL environment)))
    as [Hw|Hw]; [|left; exact Hw].
  right.
  destruct (Qlt_le_dec (DtoQ h) (DtoQ (CRITICAL_LEVEL environment)))
    as [Hc|Hc]; [right; exact Hc | left; split; assumption].
Qed.

Lemma classifier_correct_witness :
  (DtoQ (CRITICAL_LEVEL defaultEnvironment)
   < DtoQ (WARNING_LEVEL defaultEnvironment))%Q
  /\ getStatusFromHealth defaultEnvironment (dec 25 1) = GOOD
  /\ getStatusFromHealth defaultEnvironment (dec 17 1) = WARNING.
Proof.
  assert (Hlevels : (DtoQ (CRITICAL_LEVEL defaultEnvironment)
                     < DtoQ (WARNING_LEVEL defaultEnvironment))%Q)
    by reflexivity.
  split; [exact Hlevels|]. split.
  - apply (classifier_correct defaultEnvironment (dec 25 1) Hlevels).
    reflexivity.
  - apply (classifier_correct defaultEnvironment (dec 17 1) Hlevels).
    reflexivity.
Defined.

(** ** The alert decision *)

Lemma present_Some (s : UserStatus) :
  present s = true -> exists h, healthFactor s = Some h.
Proof.
  unfold present. destruct (healthFactor s) as [h|]; [eauto | discriminate].
Qed.

Lemma classifies_Some (environment : Environment) (st : Status)
    (s : UserStatus) :
  classifies environment st s = true ->
  exists h, healthFactor s = Some h
            /\ getStatusFromHealth environment h = st.
Proof.
  unfold classifies. destruct (healthFactor s) as [h|]; [|discriminate].
  intros H. exists h. split; [reflexivity|].
  destruct (getStatusFromHealth environment h), st;
    solve [reflexivity | discriminate].
Qed.

Lemma classifies_present (environment : Environment) (st : Status)
    (s : UserStatus) :
  classifies environment st s = true -> present s = true.
Proof.
  unfold classifies, present.
  destruct (healthFactor s); [reflexivity | discriminate].
Qed.

(** Every trigger text is a non-empty string. *)
Lemma getAlertTrigger_truthy (environment : Environment)
    (context : AlertContext) (latch : bool) (t : string) :
  fst (getAlertTrigger environment context latch) = Some t -> truthy t = true.
Proof.
  unfold getAlertTrigger.
  destruct (healthFactor (ctx_status context)) as [c|],
           (healthFactor (ctx_previousStatus context)) as [p|];
    cbn [fst]; try discriminate.
  - destruct (getStatusFromHealth environment c).
    + destruct (gt _ _); [discriminate|].
      destruct (gt _ _); intros [= <-]; reflexivity.
    + destruct latch; [discriminate | intros [= <-]; reflexivity].
    + intros [= <-]; reflexivity.
  - intros [= <-]; reflexivity.
Qed.

(** One CRITICAL sample against a present baseline. *)
Lemma critical_step (environment : Environment) (st : EngineState)
    (current : UserStatus) :
  present (fst st) = true ->
  classifies environment CRITICAL current = true ->
  evaluate environment st current = (Some CriticalLevel, (current, snd st)).
Proof.
  intros Hp Hc.
  destruct (present_Some _ Hp) as [p Ep].
  destruct (classifies_Some _ _ _ Hc) as [h [Eh Ec]].
  unfold evaluate, getAlertTrigger; cbn [ctx_status ctx_previousStatus].
  rewrite Eh, Ep, Ec. reflexivity.
Qed.

(** C2 - CRITICAL is never suppressed.  From any state whose baseline
    has a health factor, and whatever the latch, a run of samples
    that all classify as CRITICAL fires [CriticalLevel] on every
    evaluation, and leaves the latch as it was; a single call is the
    run of length one. *)
Theorem critical_never_suppressed (environment : Environment)
    (samples : list UserStatus) :
  forall st : EngineState,
    present (fst st) = true ->
    forallb (classifies environment CRITICAL) samples = true ->
    triggers environment st samples
    = map (fun _ => Some CriticalLevel) samples
    /\ snd (engine_after environment st samples) = snd st.
Proof.
  induction samples as [|s rest IH]; intros st Hp Hall.
  - split; reflexivity.
  - cbn [forallb] in Hall. apply andb_true_iff in Hall as [Hs Hrest].
    cbn [triggers engine_after map].
    rewrite (critical_step environment st s Hp Hs). cbn [snd].
    destruct (IH (s, snd st)) as [Ht El].
    + exact (classifies_present _ _ _ Hs).
    + exact Hrest.
    + rewrite Ht. split; [reflexivity | exact El].
Qed.

Lemma critical_never_suppressed_witness :
  triggers defaultEnvironment initialEngine
           [sample (dec 10 1); sample (dec 10 1); sample (dec 10 1)]
  = [Some CriticalLevel; Some CriticalLevel; Some CriticalLevel]
  /\ triggers defaultEnvironment (sample (dec 30 1), true) [sample (dec 16 1)]
     = [Some CriticalLevel].
Proof.
  split.
  - apply (critical_never_suppressed defaultEnvironment
             [sample (dec 10 1); sample (dec 10 1); sample (dec 10 1)]
             initialEngine); reflexivity.
  - apply (critical_never_suppressed defaultEnvironment
             [sample (dec 16 1)] (sample (dec 30 1), true)); reflexivity.
Defined.

(** A health factor strictly below both levels is a CRITICAL sample. *)
Lemma below_critical_level (environment : Environment) (h nw : Decimal) :
  (DtoQ (CRITICAL_LEVEL environment) <= DtoQ (WARNING_LEVEL environment))%Q ->
  (DtoQ h < DtoQ (CRITICAL_LEVEL environment))%Q ->
  classifies environment CRITICAL (mkUserStatus (Some h) nw) = true.
Proof.
  intros Hl Hh. unfold classifies; cbn [healthFactor].
  assert (E : getStatusFromHealth environment h = CRITICAL).
  { apply classify_CRITICAL. split; [exact Hh|].
    eapply Qlt_le_trans; eassumption. }
  rewrite E. reflexivity.
Qed.

(** One WARNING sample against a present baseline: the latch decides,
    the baseline's value plays no part. *)
Lemma warning_step (environment : Environment) (previous current : UserStatus)
    (latch : bool) :
  present previous = true ->
  classifies environment WARNING current = true ->
  evaluate environment (previous, latch) current
  = ((if latch then None else Some WarningLevel), (current, true)).
Proof.
  intros Hp Hc.
  destruct (present_Some _ Hp) as [p Ep].
  destruct (classifies_Some _ _ _ Hc) as [h [Eh Ec]].
  unfold evaluate, getAlertTrigger;
    cbn [ctx_status ctx_previousStatus fst snd].
  rewrite Eh, Ep, Ec. destruct latch; reflexivity.
Qed.

(** One GOOD sample against a present baseline clears the latch. *)
Lemma good_step_latch (environment : Environment)
    (previous current : UserStatus) (latch : bool) :
  present previous = true ->
  classifies environment GOOD current = true ->
  snd (evaluate environment (previous, latch) current) = (current, false).
Proof.
  intros Hp Hc.
  destruct (present_Some _ Hp) as [p Ep].
  destruct (classifies_Some _ _ _ Hc) as [h [Eh Ec]].
  unfold evaluate, getAlertTrigger;
    cbn [ctx_status ctx_previousStatus fst snd].
  rewrite Eh, Ep, Ec. cbv zeta.
  destruct (gt _ _); [reflexivity|]. destruct (gt _ _); reflexivity.
Qed.

(** A sample or a baseline without health factor: only the
    computability rule is looked at, the latch is left alone. *)
Lemma absent_step (environment : Environment) (st : EngineState)
    (current : UserStatus) :
  present current = false \/ present (fst st) = false ->
  evaluate environment st current
  = ((if negb (present current) && present (fst st)
      then Some NoLongerComputable else None),
     (current, snd st)).
Proof.
  unfold evaluate, getAlertTrigger, present;
    cbn [ctx_status ctx_previousStatus].
  destruct (healthFactor current), (healthFactor (fst st));
    intros [H|H]; try discriminate; reflexivity.
Qed.

(** C1, as the code has it - Warning hysteresis.  On a call where both
    health factors are present: a WARNING sample with the latch clear
    fires [WarningLevel] and sets the latch, with the latch set it
    returns no trigger and keeps it set, in both cases whatever the
    baseline's value (no delta check); a GOOD sample clears the latch.
    With the default levels 2.5 and 1.7 and deltas, the run
    [2.0, 2.0, 2.0, 3.0, 2.0] from the initial state yields
    [WarningLevel, none, none, none, WarningLevel]. *)
Theorem warning_hysteresis (environment : Environment)
    (previous current : UserStatus) :
  present previous = true ->
  present current = true ->
  (classifies environment WARNING current = true ->
     evaluate environment (previous, false) current
     = (Some WarningLevel, (current, true))
     /\ evaluate environment (previous, true) current
        = (None, (current, true)))
  /\ (classifies environment GOOD current = true ->
      forall latch,
        snd (snd (evaluate environment (previous, latch) current)) = false)
  /\ triggers defaultEnvironment initialEngine
       [sample (dec 20 1); sample (dec 20 1); sample (dec 20 1);
        sample (dec 30 1); sample (dec 20 1)]
     = [Some WarningLevel; None; None; None; Some WarningLevel].
Proof.
  intros Hp Hc. split; [|split].
  - intros Hw. split.
    + exact (warning_step environment previous current false Hp Hw).
    + exact (warning_step environment previous current true Hp Hw).
  - intros Hg latch.
    rewrite (good_step_latch environment previous current latch Hp Hg).
    reflexivity.
  - reflexivity.
Qed.

Lemma warning_hysteresis_witness :
  evaluate defaultEnvironment (sample (dec 30 1), false) (sample (dec 20 1))
  = (Some WarningLevel, (sample (dec 20 1), true))
  /\ evaluate defaultEnvironment (sample (dec 20 1), true) (sample (dec 20 1))
     = (None, (sample (dec 20 1), true))
  /\ snd (snd (evaluate defaultEnvironment (sample (dec 20 1), true)
                        (sample (dec 30 1)))) = false.
Proof.
  split; [|split].
  - apply (warning_hysteresis defaultEnvironment
             (sample (dec 30 1)) (sample (dec 20 1))); reflexivity.
  - apply (warning_hysteresis defaultEnvironment
             (sample (dec 20 1)) (sample (dec 20 1))); reflexivity.
  - apply (warning_hysteresis defaultEnvironment
             (sample (dec 20 1)) (sample (dec 30 1))); reflexivity.
Defined.

(** C1, as stated, fails in its last clause: a GOOD sample that
    follows a sample without health factor returns before the level
    switch, so a latch that was set stays set. *)
Lemma good_sample_after_no_debt_keeps_latch :
  ~ (forall (environment : Environment) (st : EngineState)
            (current : UserStatus),
        classifies environment GOOD current = true ->
        snd (snd (evaluate environment st current)) = false).
Proof.
  intros H.
  specialize (H defaultEnvironment (noDebt, true) (sample (dec 30 1))
                eq_refl).
  discriminate H.
Qed.

(** The same in a run from the initial state: the warning is sent,
    the debt is closed and reopened at a GOOD level, and the next
    WARNING sample passes unannounced. *)
Lemma latch_survives_no_debt_gap :
  triggers defaultEnvironment initialEngine
    [sample (dec 20 1); noDebt; sample (dec 30 1); sample (dec 20 1)]
  = [Some WarningLevel; Some NoLongerComputable; None; None].
Proof. reflexivity. Qed.

(** C5 - Computability transition.  When the current or the stored
    health factor is absent, [NoLongerComputable] fires exactly when
    the current one is absent and the stored one present, whatever the
    thresholds; otherwise there is no trigger; the latch is untouched
    in every such call.  Hence a second sample without health factor
    right after a first yields no trigger. *)
Theorem computability_transition (environment : Environment)
    (st : EngineState) (current : UserStatus) :
  present current = false \/ present (fst st) = false ->
  evaluate environment st current
  = ((if negb (present current) && present (fst st)
      then Some NoLongerComputable else None),
     (current, snd st))
  /\ (present current = false ->
      forall next : UserStatus,
        present next = false ->
        triggers environment st [current; next]
        = [fst (evaluate environment st current); None]).
Proof.
  intros Habsent. split.
  - exact (absent_step environment st current Habsent).
  - intros Hc next Hn. cbn [triggers].
    rewrite (absent_step environment st current Habsent).
    rewrite (absent_step environment (current, snd st) next (or_introl Hn)).
    cbn [fst snd]. rewrite Hc, Hn. reflexivity.
Qed.

Lemma computability_transition_witness :
  evaluate defaultEnvironment (sample (dec 15 1), false) noDebt
  = (Some NoLongerComputable, (noDebt, false))
  /\ evaluate defaultEnvironment (noDebt, true) noDebt = (None, (noDebt, true))
  /\ evaluate defaultEnvironment (noDebt, true) (sample (dec 10 1))
     = (None, (sample (dec 10 1), true)).
Proof.
  split; [|split].
  - apply (computability_transition defaultEnvironment
             (sample (dec 15 1), false) noDebt).
    left; reflexivity.
  - apply (computability_transition defaultEnvironment (noDebt, true) noDebt).
    left; reflexivity.
  - apply (computability_transition defaultEnvironment (noDebt, true)
             (sample (dec 10 1))).
    right; reflexivity.
Defined.

(** ** The delta check *)

(** One GOOD sample against a present baseline: the three outcomes of
    the delta check, by the rounded difference. *)
Lemma good_step (environment : Environment) (previous current : UserStatus)
    (h p : Decimal) (latch : bool) :
  healthFactor current = Some h ->
  healthFactor previous = Some p ->
  getStatusFromHealth environment h = GOOD ->
  evaluate environment (previous, latch) current
  = ((if gt (minus h p) (negated (WARNING_DELTA environment)) then None
      else if gt (minus h p) (negated (CRITITAL_DELTA environment))
           then Some WarningDelta
           else Some CriticalDelta),
     (current, false)).
Proof.
  intros Eh Ep Ec.
  unfold evaluate, getAlertTrigger;
    cbn [ctx_status ctx_previousStatus fst snd].
  rewrite Eh, Ep, Ec. cbv zeta.
  destruct (gt _ _); [reflexivity|]. destruct (gt _ _); reflexivity.
Qed.

(** C4, as the code has it - Delta bands.  On a call that reaches the
    delta check (both health factors present, current GOOD), let
    [delta] be [current.minus(previous)]: the exact difference rounded
    half-up to 20 significant digits, and the exact difference itself
    when that has at most 20 digits.  If [delta > -warningDelta] there
    is no trigger; if [-criticalDelta < delta <= -warningDelta] it
    fires [WarningDelta]; if [delta <= -criticalDelta] and
    [delta <= -warningDelta] it fires [CriticalDelta]; the latch is
    clear afterwards.  With deltas 0.5 and 1 and levels that make the
    current sample GOOD, 3.0 to 2.2 fires [WarningDelta] and 3.0 to
    1.9 fires [CriticalDelta]. *)
Theorem delta_bands (environment : Environment)
    (previous current : UserStatus) (h p : Decimal) (latch : bool) :
  healthFactor current = Some h ->
  healthFactor previous = Some p ->
  getStatusFromHealth environment h = GOOD ->
  let delta := minus h p in
  let wd := DtoQ (WARNING_DELTA environment) in
  let cd := DtoQ (CRITITAL_DELTA environment) in
  let result := evaluate environment (previous, latch) current in
  delta = finalise (minus_exact h p)
  /\ ((Z.abs (coef (minus_exact h p)) < Zpos (pow10 precision))%Z ->
      (DtoQ delta == DtoQ h - DtoQ p)%Q)
  /\ ((- wd < DtoQ delta)%Q -> result = (None, (current, false)))
  /\ ((- cd < DtoQ delta)%Q -> (DtoQ delta <= - wd)%Q ->
      result = (Some WarningDelta, (current, false)))
  /\ ((DtoQ delta <= - cd)%Q -> (DtoQ delta <= - wd)%Q ->
      result = (Some CriticalDelta, (current, false)))
  /\ evaluate lowLevelEnvironment (sample (dec 30 1), latch)
              (sample (dec 22 1))
     = (Some WarningDelta, (sample (dec 22 1), false))
  /\ evaluate lowLevelEnvironment (sample (dec 30 1), latch)
              (sample (dec 19 1))
     = (Some CriticalDelta, (sample (dec 19 1), false)).
Proof.
  intros Eh Ep Ec delta wd cd result.
  assert (Er := good_step environment previous current h p latch Eh Ep Ec).
  fold delta result in Er.
  split; [reflexivity|].
  split.
  { intros Hsmall. unfold delta, minus.
    rewrite (finalise_exact _ Hsmall). apply minus_exact_spec. }
  split.
  { intros Hw. rewrite Er.
    assert (G : gt delta (negated (WARNING_DELTA environment)) = true)
      by (apply gt_spec; rewrite negated_spec; exact Hw).
    rewrite G. reflexivity. }
  split.
  { intros Hc Hw. rewrite Er.
    assert (G1 : gt delta (negated (WARNING_DELTA environment)) = false)
      by (apply gt_false; rewrite negated_spec; exact Hw).
    assert (G2 : gt delta (negated (CRITITAL_DELTA environment)) = true)
      by (apply gt_spec; rewrite negated_spec; exact Hc).
    rewrite G1, G2. reflexivity. }
  split.
  { intros Hc Hw. rewrite Er.
    assert (G1 : gt delta (negated (WARNING_DELTA environment)) = false)
      by (apply gt_false; rewrite negated_spec; exact Hw).
    assert (G2 : gt delta (negated (CRITITAL_DELTA environment)) = false)
      by (apply gt_false; rewrite negated_spec; exact Hc).
    rewrite G1, G2. reflexivity. }
  split; reflexivity.
Qed.

Lemma delta_bands_witness :
  getStatusFromHealth lowLevelEnvironment (dec 22 1) = GOOD
  /\ minus (dec 22 1) (dec 30 1) = dec (-8) 1
  /\ evaluate lowLevelEnvironment (sample (dec 30 1), false)
              (sample (dec 22 1))
     = (Some WarningDelta, (sample (dec 22 1), false)).
Proof.
  split; [reflexivity|]. split; [reflexivity|].
  refine (proj1 (proj2 (proj2 (proj2
    (delta_bands lowLevelEnvironment (sample (dec 30 1)) (sample (dec 22 1))
                 (dec 22 1) (dec 30 1) false eq_refl eq_refl eq_refl)))) _ _);
    vm_compute; congruence.
Defined.

(** C4, as stated, fails: the difference is not computed exactly.
    From 3.4999999999999999999999 to 3 the exact difference lies
    strictly above [-0.5], yet [minus] rounds it to [-0.5] and
    [WarningDelta] fires. *)
Lemma rounded_delta_fires_warning :
  ~ (forall (environment : Environment) (previous current : UserStatus)
            (h p : Decimal) (latch : bool),
        healthFactor current = Some h ->
        healthFactor previous = Some p ->
        getStatusFromHealth environment h = GOOD ->
        (- DtoQ (WARNING_DELTA environment) < DtoQ h - DtoQ p)%Q ->
        fst (evaluate environment (previous, latch) current) = None).
Proof.
  intros H.
  specialize (H defaultEnvironment (sample longHealth) (sample (dec 3 0))
                (dec 3 0) longHealth false eq_refl eq_refl eq_refl).
  assert (Hexact : (- DtoQ (WARNING_DELTA defaultEnvironment)
                    < DtoQ (dec 3 0) - DtoQ longHealth)%Q)
    by (vm_compute; reflexivity).
  specialize (H Hexact). vm_compute in H. discriminate H.
Qed.

(** What [minus] returns there. *)
Lemma rounded_delta_value :
  minus (dec 3 0) longHealth = dec (-50000000000000000000) 20
  /\ evaluate defaultEnvironment (sample longHealth, false) (sample (dec 3 0))
     = (Some WarningDelta, (sample (dec 3 0), false)).
Proof. split; vm_compute; reflexivity. Qed.

(** The last band of C4 also needs the two deltas in order: with a
    warning delta of 1 and a critical delta of 0.5, a drop of 0.7 is
    at most [-criticalDelta] and returns no trigger. *)
Lemma swapped_deltas_no_trigger :
  getStatusFromHealth swappedDeltaEnvironment (dec 23 1) = GOOD
  /\ (DtoQ (minus (dec 23 1) (dec 30 1))
      <= - DtoQ (CRITITAL_DELTA swappedDeltaEnvironment))%Q
  /\ evaluate swappedDeltaEnvironment (sample (dec 30 1), false)
              (sample (dec 23 1))
     = (None, (sample (dec 23 1), false)).
Proof.
  split; [reflexivity|]. split; [|reflexivity].
  vm_compute. discriminate.
Qed.

(** With the default levels the claim's two examples do not reach the
    delta check: 2.2 and 1.9 are WARNING samples. *)
Lemma default_levels_examples :
  evaluate defaultEnvironment (sample (dec 30 1), false) (sample (dec 22 1))
  = (Some WarningLevel, (sample (dec 22 1), true))
  /\ evaluate defaultEnvironment (sample (dec 30 1), false)
              (sample (dec 19 1))
     = (Some WarningLevel, (sample (dec 19 1), true)).
Proof. split; reflexivity. Qed.

(** ** The first tick *)

Lemma DtoQ_nonneg (x : Decimal) : (0 <= coef x)%Z <-> (0 <= DtoQ x)%Q.
Proof.
  unfold DtoQ, Qle; cbn [Qnum Qden]. rewrite Z.mul_1_r, Z.mul_0_l. tauto.
Qed.

(** C10 - First tick against the sentinel baseline.  The initial
    baseline holds the decimal 0, a present health factor.  So a first
    sample without health factor fires [NoLongerComputable]; and for a
    first sample that classifies as GOOD, with a non-negative warning
    level and a positive warning delta, the difference taken is the
    sample's own (rounded) value, which lies above [-warningDelta]:
    no delta trigger fires. *)
Theorem first_tick (environment : Environment) (current : UserStatus) :
  (0 <= DtoQ (WARNING_LEVEL environment))%Q ->
  (0 < DtoQ (WARNING_DELTA environment))%Q ->
  present (fst initialEngine) = true
  /\ (present current = false ->
      evaluate environment initialEngine current
      = (Some NoLongerComputable, (current, false)))
  /\ (forall h : Decimal,
        healthFactor current = Some h ->
        getStatusFromHealth environment h = GOOD ->
        minus h (ofZ 0) = finalise h
        /\ evaluate environment initialEngine current
           = (None, (current, false))).
Proof.
  intros Hlevel Hdelta. split; [reflexivity|]. split.
  - intros Hc.
    rewrite (absent_step environment initialEngine current (or_introl Hc)).
    rewrite Hc. reflexivity.
  - intros h Eh Ec. split; [apply minus_zero|].
    unfold initialEngine.
    rewrite (good_step environment initialPreviousStatus current h (ofZ 0)
               false Eh eq_refl Ec).
    rewrite minus_zero.
    assert (Hh : (0 <= DtoQ h)%Q).
    { apply classify_GOOD in Ec. eapply Qle_trans; eassumption. }
    assert (Hf : (0 <= DtoQ (finalise h))%Q).
    { apply DtoQ_nonneg, finalise_nonneg, DtoQ_nonneg, Hh. }
    assert (G : gt (finalise h) (negated (WARNING_DELTA environment)) = true).
    { apply gt_spec. rewrite negated_spec.
      eapply Qlt_le_trans; [|exact Hf].
      apply Qopp_lt_compat in Hdelta. exact Hdelta. }
    rewrite G. reflexivity.
Qed.

Lemma first_tick_witness :
  (0 <= DtoQ (WARNING_LEVEL defaultEnvironment))%Q
  /\ (0 < DtoQ (WARNING_DELTA defaultEnvironment))%Q
  /\ evaluate defaultEnvironment initialEngine noDebt
     = (Some NoLongerComputable, (noDebt, false))
  /\ evaluate defaultEnvironment initialEngine (sample (dec 30 1))
     = (None, (sample (dec 30 1), false)).
Proof.
  assert (Hlevel : (0 <= DtoQ (WARNING_LEVEL defaultEnvironment))%Q)
    by (vm_compute; discriminate).
  assert (Hdelta : (0 < DtoQ (WARNING_DELTA defaultEnvironment))%Q)
    by reflexivity.
  split; [exact Hlevel|]. split; [exact Hdelta|]. split.
  - apply (first_tick defaultEnvironment noDebt Hlevel Hdelta). reflexivity.
  - apply (proj2 (proj2 (first_tick defaultEnvironment (sample (dec 30 1))
                                    Hlevel Hdelta)) (dec 30 1));
      reflexivity.
Defined.

(** ** The baseline kept by [getAlertMessage] *)

(** [getAlertMessage] on a fetched sample: the engine variables move
    as [evaluate] says, nothing else but the fetch counter changes. *)
Lemma getAlertMessage_fetched (environment : Environment) (w : World)
    (s : UserStatus) :
  marketStates w (fetched w) = Returned s ->
  getAlertMessage environment w
  = (Returned (option_map
                 (fun t => alertText environment t s (previousStatus w))
                 (fst (evaluate environment (engine w) s))),
     mkWorld (marketStates w) (S (fetched w)) (transport w) (sendCalls w)
             (delivered w) (unhandled w) (logged w) (pendingTimers w)
             s (snd (snd (evaluate environment (engine w) s)))).
Proof.
  intros Hs.
  pose proof (getAlertTrigger_truthy environment
                (mkAlertContext (previousStatus w) s) (warningWasSent w))
    as Htruthy.
  unfold getAlertMessage, bind, getUserStatus, get_previousStatus,
    get_warningWasSent, evaluate, engine.
  rewrite Hs. cbn [previousStatus warningWasSent fst snd].
  destruct (getAlertTrigger environment
              (mkAlertContext (previousStatus w) s) (warningWasSent w))
    as [[t|] latch'] eqn:E; cbn [fst snd option_map] in *.
  - unfold set_warningWasSent, set_previousStatus, set_engine, ret;
      cbn.
    rewrite (Htruthy t eq_refl). reflexivity.
  - reflexivity.
Qed.

(** A failed fetch leaves both engine variables as they were. *)
Lemma getAlertMessage_fetch_failed (environment : Environment) (w : World)
    (e : string) :
  marketStates w (fetched w) = Thrown e ->
  fst (getAlertMessage environment w) = Thrown e
  /\ engine (snd (getAlertMessage environment w)) = engine w.
Proof.
  intros Hs. unfold getAlertMessage, bind, getUserStatus.
  rewrite Hs. split; reflexivity.
Qed.

(** C6 - Baseline advance.  After every call of [getAlertMessage]
    whose fetch returned a sample, fired or not, [previousStatus] is
    that sample; the trigger was decided against the baseline and the
    latch held before the call; and the latch that decision left is
    the one stored for the next call. *)
Theorem baseline_advances (environment : Environment) (w : World)
    (s : UserStatus) :
  marketStates w (fetched w) = Returned s ->
  let decision :=
    getAlertTrigger environment (mkAlertContext (previousStatus w) s)
                    (warningWasSent w) in
  let w' := snd (getAlertMessage environment w) in
  previousStatus w' = s
  /\ warningWasSent w' = snd decision
  /\ fst (getAlertMessage environment w)
     = Returned (option_map
                   (fun t => alertText environment t s (previousStatus w))
                   (fst decision))
  /\ engine w' = snd (evaluate environment (engine w) s).
Proof.
  intros Hs decision w'. unfold w'.
  rewrite (getAlertMessage_fetched environment w s Hs).
  unfold evaluate, engine; cbn [fst snd previousStatus warningWasSent].
  fold decision. destruct decision as [t latch']. cbn [fst snd].
  repeat split.
Qed.

Lemma baseline_advances_witness :
  previousStatus
    (snd (getAlertMessage defaultEnvironment
            (initialWorld (fun _ => Returned (sample (dec 20 1)))
                          (fun _ => None))))
  = sample (dec 20 1)
  /\ warningWasSent
       (snd (getAlertMessage defaultEnvironment
               (initialWorld (fun _ => Returned (sample (dec 20 1)))
                             (fun _ => None))))
     = true.
Proof.
  pose proof (baseline_advances defaultEnvironment
                (initialWorld (fun _ => Returned (sample (dec 20 1)))
                              (fun _ => None))
                (sample (dec 20 1)) eq_refl) as H.
  split; [exact (proj1 H) | exact (proj1 (proj2 H))].
Defined.

(** The same along a run: the state after any run of samples holds the
    last of them. *)
Lemma engine_after_last (environment : Environment)
    (samples : list UserStatus) :
  forall (st : EngineState) (s : UserStatus),
    fst (engine_after environment st (samples ++ [s])) = s.
Proof.
  induction samples as [|x rest IH]; intros st s.
  - cbn. unfold evaluate. destruct (getAlertTrigger _ _ _). reflexivity.
  - cbn [app engine_after]. apply IH.
Qed.

(** ** The status command *)

(** C8 - Status-query frame.  The handler of the status command
    fetches once, formats and sends; whatever the fetch and the
    delivery do, it leaves [previousStatus] and [warningWasSent] as
    they were, and what it does is the same for every value of the
    two: it neither writes nor reads them.  It schedules nothing. *)
Theorem status_command_frame (environment : Environment) (chat : string)
    (w : World) :
  engine (snd (statusCommand environment chat w)) = engine w
  /\ (forall (p : UserStatus) (l : bool),
        statusCommand environment chat (set_engine p l w)
        = (fst (statusCommand environment chat w),
           set_engine p l (snd (statusCommand environment chat w))))
  /\ fetched (snd (statusCommand environment chat w)) = S (fetched w)
  /\ pendingTimers (snd (statusCommand environment chat w)) = pendingTimers w
  /\ (forall s : UserStatus,
        marketStates w (fetched w) = Returned s ->
        transport w (sendCalls w) = None ->
        delivered (snd (statusCommand environment chat w))
        = (delivered w ++ [(chat, formatStatus environment s)])%list).
Proof.
  unfold statusCommand, tryCatch, getStatusMessage, bind, ret,
    getUserStatus, sendMessage_detached, sendMessage, set_engine, engine.
  cbn [marketStates fetched transport sendCalls delivered unhandled logged
       pendingTimers previousStatus warningWasSent].
  destruct (marketStates w (fetched w)) as [s|e];
    cbn [marketStates fetched transport sendCalls delivered unhandled logged
         pendingTimers previousStatus warningWasSent];
    destruct (transport w (sendCalls w)) as [e'|];
    cbn [fst snd marketStates fetched transport sendCalls delivered unhandled
         logged pendingTimers previousStatus warningWasSent];
    (split; [reflexivity|]); (split; [reflexivity|]);
    (split; [reflexivity|]); (split; [reflexivity|]);
    intros s' Hs Ht; try discriminate; congruence.
Qed.

(** A failed fetch on the status path is answered with the error
    note, again without touching the engine. *)
Lemma status_command_on_failure (environment : Environment) (chat : string)
    (w : World) (e : string) :
  marketStates w (fetched w) = Thrown e ->
  transport w (sendCalls w) = None ->
  delivered (snd (statusCommand environment chat w))
  = (delivered w ++ [(chat, getErrorMessage e "status")])%list.
Proof.
  intros Hs Ht.
  unfold statusCommand, tryCatch, getStatusMessage, bind,
    getUserStatus, sendMessage_detached, sendMessage.
  rewrite Hs. cbn [transport sendCalls]. rewrite Ht. reflexivity.
Qed.

(** ** The poll loop *)

Lemma quiet_ret {A : Type} (a : A) : quiet (ret a).
Proof. intros w. split; reflexivity. Qed.

Lemma quiet_bind {A B : Type} (m : M A) (k : A -> M B) :
  quiet m -> (forall a, quiet (k a)) -> quiet (bind m k).
Proof.
  intros Hm Hk w. unfold bind.
  specialize (Hm w). destruct (m w) as [[a|e] w1]; cbn [snd] in *.
  - specialize (Hk a w1). destruct Hk as [H1 H2], Hm as [H3 H4].
    split; congruence.
  - exact Hm.
Qed.

Lemma quiet_getUserStatus : quiet getUserStatus.
Proof. intros w. split; reflexivity. Qed.

Lemma quiet_sendMessage (chat text : string) : quiet (sendMessage chat text).
Proof.
  intros w. unfold sendMessage.
  destruct (transport w (sendCalls w)); split; reflexivity.
Qed.

Lemma quiet_getAlertMessage (environment : Environment) :
  quiet (getAlertMessage environment).
Proof.
  unfold getAlertMessage.
  apply quiet_bind; [apply quiet_getUserStatus | intros status].
  apply quiet_bind; [intros w; split; reflexivity | intros previous].
  apply quiet_bind; [intros w; split; reflexivity | intros latch].
  destruct (getAlertTrigger _ _ _) as [t latch'].
  apply quiet_bind; [intros w; split; reflexivity | intros _].
  apply quiet_bind; [intros w; split; reflexivity | intros _].
  destruct t as [t|]; [destruct (truthy t)|]; apply quiet_ret.
Qed.

(** The guarded part of [checkHealth]. *)
Lemma quiet_check_body (environment : Environment) :
  quiet (bind (getAlertMessage environment)
              (fun alertMessage =>
                 match alertMessage with
                 | Some text =>
                     if truthy text
                     then sendMessage (TELEGRAM_BOT_CHAT_ID environment) text
                     else ret tt
                 | None => ret tt
                 end)).
Proof.
  apply quiet_bind; [apply quiet_getAlertMessage | intros [text|]].
  - destruct (truthy text); [apply quiet_sendMessage | apply quiet_ret].
  - apply quiet_ret.
Qed.

(** A tick either arms the timer again or ends with one more warning
    in the log and the timer not armed. *)
Lemma tick_outcome (environment : Environment) (w : World) :
  pendingTimers (tick environment w) = S (pendingTimers w)
  \/ (pendingTimers (tick environment w) = pendingTimers w
      /\ exists e, logged (tick environment w) = (logged w ++ [e])%list).
Proof.
  remember (tick environment w) as t eqn:Et.
  unfold tick, checkHealth, tryCatch in Et.
  unfold bind at 1 in Et.
  pose proof (quiet_check_body environment w) as Hbody.
  destruct (bind (getAlertMessage environment) _ w) as [[a|e] w1];
    cbn [snd] in Hbody; destruct Hbody as [Hp Hl].
  - left. subst t. unfold setTimeout; cbn [pendingTimers]. congruence.
  - pose proof (quiet_sendMessage (TELEGRAM_BOT_CHAT_ID environment)
                  (getErrorMessage e "check") w1) as Hsend.
    destruct (sendMessage _ _ w1) as [[a|e2] w2];
      cbn [snd] in Hsend; destruct Hsend as [Hp2 Hl2]; subst t.
    + left. unfold setTimeout; cbn [pendingTimers]. congruence.
    + right. unfold logger_warn; cbn [pendingTimers logged].
      split; [congruence|]. exists e2. congruence.
Qed.

Lemma getAlertMessage_thrown (environment : Environment) (w : World)
    (e : string) :
  marketStates w (fetched w) = Thrown e ->
  getAlertMessage environment w
  = (Thrown e,
     mkWorld (marketStates w) (S (fetched w)) (transport w) (sendCalls w)
             (delivered w) (unhandled w) (logged w) (pendingTimers w)
             (previousStatus w) (warningWasSent w)).
Proof.
  intros Hs. unfold getAlertMessage, bind, getUserStatus.
  rewrite Hs. reflexivity.
Qed.

(** [tick] unfolded along the outcomes of its awaited calls. *)
Lemma tick_unfold (environment : Environment) (w : World) :
  let chat := TELEGRAM_BOT_CHAT_ID environment in
  let arm := fun w' : World => snd (setTimeout w') in
  let recover := fun (e : string) (w' : World) =>
    match sendMessage chat (getErrorMessage e "check") w' with
    | (Returned _, w2) => arm w2
    | (Thrown e2, w2) => logger_warn e2 w2
    end in
  tick environment w
  = match getAlertMessage environment w with
    | (Returned (Some text), w1) =>
        if truthy text
        then match sendMessage chat text w1 with
             | (Returned _, w2) => arm w2
             | (Thrown e, w2) => recover e w2
             end
        else arm w1
    | (Returned None, w1) => arm w1
    | (Thrown e, w1) => recover e w1
    end.
Proof.
  cbv zeta. unfold tick, checkHealth, tryCatch, bind.
  destruct (getAlertMessage environment w) as [[[text|]|e] w1].
  - destruct (truthy text); [|reflexivity].
    destruct (sendMessage _ text w1) as [[a|e] w2]; [reflexivity|].
    destruct (sendMessage _ _ w2) as [[a|e2] w3]; reflexivity.
  - reflexivity.
  - destruct (sendMessage _ _ w1) as [[a|e2] w2]; reflexivity.
Qed.

(** The part of C7 the code keeps: whatever the fetch does, a tick
    whose next delivery attempt succeeds arms the timer again, and a
    failed fetch is reported with the error note. *)
Lemma tick_continues_when_delivery_works (environment : Environment)
    (w : World) :
  transport w (sendCalls w) = None ->
  pendingTimers (tick environment w) = S (pendingTimers w)
  /\ (forall e, marketStates w (fetched w) = Thrown e ->
                delivered (tick environment w)
                = (delivered w
                   ++ [(TELEGRAM_BOT_CHAT_ID environment,
                        getErrorMessage e "check")])%list).
Proof.
  intros Ht. rewrite tick_unfold.
  destruct (marketStates w (fetched w)) as [s|e] eqn:Es.
  - rewrite (getAlertMessage_fetched environment w s Es).
    split; [|intros e He; discriminate He].
    destruct (option_map _ _) as [text|]; [destruct (truthy text)|].
    + unfold sendMessage; cbn [transport sendCalls]. rewrite Ht. reflexivity.
    + reflexivity.
    + reflexivity.
  - rewrite (getAlertMessage_thrown environment w e Es).
    unfold sendMessage; cbn [transport sendCalls]. rewrite Ht.
    split; [reflexivity|]. intros e' [= <-]. reflexivity.
Qed.

(** A failed delivery of the alert itself is reported by a second
    delivery; when that one works the timer is armed again. *)
Lemma tick_recovers_failed_alert (environment : Environment) (w : World)
    (s : UserStatus) (t e : string) :
  marketStates w (fetched w) = Returned s ->
  fst (evaluate environment (engine w) s) = Some t ->
  transport w (sendCalls w) = Some e ->
  transport w (S (sendCalls w)) = None ->
  pendingTimers (tick environment w) = S (pendingTimers w)
  /\ delivered (tick environment w)
     = (delivered w
        ++ [(TELEGRAM_BOT_CHAT_ID environment, getErrorMessage e "check")])%list.
Proof.
  intros Es Et H0 H1. rewrite tick_unfold.
  rewrite (getAlertMessage_fetched environment w s Es), Et.
  cbn [option_map].
  unfold alertText at 1. cbn [truthy append].
  unfold sendMessage; cbn [transport sendCalls]. rewrite H0.
  cbn [transport sendCalls]. rewrite H1.
  split; reflexivity.
Qed.

(** Deliveries never touch the engine: after a tick whose fetch
    returned a sample the two engine variables are what [evaluate]
    says, whatever the transport does. *)
Lemma tick_engine (environment : Environment) (w : World) (s : UserStatus) :
  marketStates w (fetched w) = Returned s ->
  engine (tick environment w) = snd (evaluate environment (engine w) s).
Proof.
  intros Es. rewrite tick_unfold.
  rewrite (getAlertMessage_fetched environment w s Es).
  assert (Hsend : forall chat text w1,
            engine (snd (sendMessage chat text w1)) = engine w1).
  { intros chat text w1. unfold sendMessage.
    destruct (transport w1 (sendCalls w1)); reflexivity. }
  assert (Hfst : fst (snd (evaluate environment (engine w) s)) = s)
    by (unfold evaluate; destruct (getAlertTrigger _ _ _); reflexivity).
  destruct (evaluate environment (engine w) s) as [t [p l]].
  cbn [fst snd option_map] in *. subst p.
  destruct t as [t|]; cbn [option_map]; [|reflexivity].
  match goal with |- context [truthy ?m] => destruct (truthy m) end;
    [|reflexivity].
  match goal with
  | |- context [sendMessage ?c ?m ?w1] =>
      pose proof (Hsend c m w1) as H1;
      destruct (sendMessage c m w1) as [[a|e] w2]; cbn [snd] in H1
  end.
  - transitivity (engine w2); [reflexivity | exact H1].
  - match goal with
    | |- context [sendMessage ?c ?m w2] =>
        pose proof (Hsend c m w2) as H2;
        destruct (sendMessage c m w2) as [[a|e2] w3]; cbn [snd] in H2
    end;
      (transitivity (engine w3); [reflexivity | rewrite H2, H1; reflexivity]).
Qed.

(** Where the loop breaks: the fetch fails and the delivery of the
    error note is rejected.  The rejection is logged, nothing is
    delivered and the timer is not armed. *)
Lemma tick_stops_when_recovery_fails (environment : Environment) (w : World)
    (e1 e2 : string) :
  marketStates w (fetched w) = Thrown e1 ->
  transport w (sendCalls w) = Some e2 ->
  pendingTimers (tick environment w) = pendingTimers w
  /\ logged (tick environment w) = (logged w ++ [e2])%list
  /\ delivered (tick environment w) = delivered w.
Proof.
  intros Es Ht. rewrite tick_unfold.
  rewrite (getAlertMessage_thrown environment w e1 Es).
  unfold sendMessage; cbn [transport sendCalls]. rewrite Ht.
  repeat split.
Qed.

(** The same when the alert and then the error note are rejected. *)
Lemma tick_stops_when_both_deliveries_fail (environment : Environment)
    (w : World) (s : UserStatus) (t e1 e2 : string) :
  marketStates w (fetched w) = Returned s ->
  fst (evaluate environment (engine w) s) = Some t ->
  transport w (sendCalls w) = Some e1 ->
  transport w (S (sendCalls w)) = Some e2 ->
  pendingTimers (tick environment w) = pendingTimers w
  /\ logged (tick environment w) = (logged w ++ [e2])%list.
Proof.
  intros Es Et H0 H1. rewrite tick_unfold.
  rewrite (getAlertMessage_fetched environment w s Es), Et.
  cbn [option_map].
  unfold alertText at 1. cbn [truthy append].
  unfold sendMessage; cbn [transport sendCalls]. rewrite H0.
  cbn [transport sendCalls]. rewrite H1.
  split; reflexivity.
Qed.

Lemma fire_idle (environment : Environment) (w : World) :
  pendingTimers w = 0%nat -> fire environment w = w.
Proof. intros H. unfold fire. rewrite H. reflexivity. Qed.

(** C7 at its failing input - the fetch of the first tick fails and
    the delivery of the error note fails too.  The second failure
    leaves [checkHealth] before [setTimeout] is reached: it is logged,
    no timer is pending, and however often the timer is given the
    chance to fire no further tick runs: exactly one fetch was ever
    made. *)
Theorem recovery_failure_stops_polling (n : nat) :
  pendingTimers (run defaultEnvironment n outageWorld) = 0%nat
  /\ fetched (run defaultEnvironment n outageWorld) = 1%nat
  /\ logged (run defaultEnvironment n outageWorld) = ["delivery failed"]
  /\ delivered (run defaultEnvironment n outageWorld)
     = [("operator", "ℹ️ Bot started")].
Proof.
  assert (E : run defaultEnvironment n outageWorld
              = run defaultEnvironment 0 outageWorld).
  { induction n as [|n IH]; [reflexivity|].
    cbn [run]. rewrite IH. apply fire_idle. reflexivity. }
  rewrite E. repeat split.
Qed.

(** Had the error note been delivered, the loop would have gone on. *)
Lemma outage_with_working_delivery :
  pendingTimers
    (tick defaultEnvironment
          (initialWorld (fun _ => Thrown "fetch failed") (fun _ => None)))
  = 1%nat.
Proof. reflexivity. Qed.

(** ** The rendered status text *)

Lemma string_of_uint_digits (u : Decimal.uint) :
  all_digits (NilEmpty.string_of_uint u) = true.
Proof. induction u; cbn; auto. Qed.

Lemma integer_digits_all_digits (n : Z) : all_digits (integer_digits n) = true.
Proof. apply string_of_uint_digits. Qed.

Lemma digit_char_is_digit (d : Z) :
  (0 <= d < 10)%Z -> is_digit (digit_char d) = true.
Proof.
  intros H.
  assert (E : (d = 0 \/ d = 1 \/ d = 2 \/ d = 3 \/ d = 4 \/ d = 5 \/ d = 6
               \/ d = 7 \/ d = 8 \/ d = 9)%Z) by lia.
  repeat (destruct E as [->|E]; [reflexivity|]). subst d. reflexivity.
Qed.

Lemma fraction_digits_2 (r : Z) :
  (0 <= r < 100)%Z -> all_digits (fraction_digits 2 r) = true.
Proof.
  intros H. cbn [fraction_digits all_digits pow10].
  change (Zpos (10 * 1)) with 10%Z. change (Zpos 1) with 1%Z.
  rewrite Z.div_1_r.
  pose proof (Z.mod_pos_bound r 10 eq_refl) as Hm.
  rewrite !digit_char_is_digit; [reflexivity | lia |].
  split; [apply Z.div_pos; lia | apply Z.div_lt_upper_bound; lia].
Qed.

Lemma digit_is_not_dot (c : ascii) : is_digit c = true -> is_dot c = false.
Proof.
  unfold is_digit, is_dot. intros H.
  destruct (Ascii.eqb c ".") eqn:E; [|reflexivity].
  apply Ascii.eqb_eq in E. subst c. discriminate H.
Qed.

Lemma all_digits_no_dot (s : string) : all_digits s = true -> no_dot s = true.
Proof.
  induction s as [|c s IH]; [reflexivity|].
  cbn [all_digits no_dot]. intros H.
  apply andb_true_iff in H as [Hc Hs].
  rewrite (digit_is_not_dot c Hc), (IH Hs). reflexivity.
Qed.

Lemma replace_dot_first (r a b : string) :
  no_dot a = true -> replace_dot r (a ++ "." ++ b) = a ++ r ++ b.
Proof.
  induction a as [|c a IH]; [reflexivity|].
  cbn [no_dot append replace_dot]. intros H.
  apply andb_true_iff in H as [Hc Ha]. apply negb_true_iff in Hc.
  rewrite Hc. cbn [append] in IH. rewrite (IH Ha). reflexivity.
Qed.

Lemma dots_escaped_no_dot (s : string) :
  no_dot s = true -> forall b, dots_escaped_from b s = true.
Proof.
  induction s as [|c s IH]; [reflexivity|].
  cbn [no_dot dots_escaped_from]. intros H b.
  apply andb_true_iff in H as [Hc Hs]. apply negb_true_iff in Hc.
  rewrite Hc. apply IH, Hs.
Qed.

Lemma dots_escaped_app (a s : string) :
  no_dot a = true ->
  forall b, dots_escaped_from b (a ++ escaped_dot ++ s)
            = dots_escaped_from false s.
Proof.
  induction a as [|c a IH]; intros H b.
  - reflexivity.
  - cbn [no_dot] in H. apply andb_true_iff in H as [Hc Ha].
    apply negb_true_iff in Hc.
    cbn [append dots_escaped_from]. rewrite Hc. apply IH, Ha.
Qed.

Lemma no_dot_app (a b : string) :
  no_dot (a ++ b) = no_dot a && no_dot b.
Proof.
  induction a as [|c a IH]; [reflexivity|].
  cbn [append no_dot]. rewrite IH. apply andb_assoc.
Qed.

(** [toFixed(2)] of a non-negative decimal: digits, a point, two
    digits. *)
Lemma toFixed_2_nonneg (x : Decimal) :
  (0 <= coef x)%Z ->
  let q := scaled_magnitude 2 x in
  toFixed 2 x
  = integer_digits (q / 100) ++ "." ++ fraction_digits 2 (q mod 100).
Proof.
  intros H q. unfold toFixed. fold q.
  assert (E : (coef x <? 0)%Z = false) by (apply Z.ltb_ge; exact H).
  rewrite E. reflexivity.
Qed.

Lemma string_app_assoc (a b c : string) : (a ++ b) ++ c = a ++ (b ++ c).
Proof.
  induction a as [|x a IH]; [reflexivity|].
  cbn [append]. rewrite IH. reflexivity.
Qed.

(** C9 - Status text without health factor.  For every sample with no
    health factor and a non-negative net worth, [formatStatus] (a
    total function: nothing in it can throw) renders "N/A" as the
    badge and as the health factor, and the net worth as digits, an
    escaped point and two digits; every point of the text follows a
    backslash. *)
Theorem status_text_without_health_factor (environment : Environment)
    (s : UserStatus) :
  healthFactor s = None ->
  (0 <= coef (netWorth s))%Z ->
  let q := scaled_magnitude 2 (netWorth s) in
  let whole := integer_digits (q / 100) in
  let cents := fraction_digits 2 (q mod 100) in
  getStatusString environment s = "N/A"
  /\ healthText (healthFactor s) = "N/A"
  /\ formatStatus environment s
     = "*N/A*" ++ nl ++ nl ++ "Health factor: *N/A*" ++ nl
       ++ "Net worth: *" ++ whole ++ "\." ++ cents ++ "$*"
  /\ all_digits whole = true
  /\ all_digits cents = true
  /\ dots_escaped (formatStatus environment s) = true.
Proof.
  intros Hh Hn q whole cents.
  assert (Hwhole : all_digits whole = true)
    by apply integer_digits_all_digits.
  assert (Hcents : all_digits cents = true)
    by (apply fraction_digits_2, Z.mod_pos_bound; reflexivity).
  assert (Hbadge : getStatusString environment s = "N/A")
    by (unfold getStatusString; rewrite Hh; reflexivity).
  assert (Hamount : amountText (netWorth s) = whole ++ "\." ++ cents).
  { unfold amountText. rewrite (toFixed_2_nonneg _ Hn). fold q whole cents.
    apply replace_dot_first, all_digits_no_dot, Hwhole. }
  assert (Htext : formatStatus environment s
                  = "*N/A*" ++ nl ++ nl ++ "Health factor: *N/A*" ++ nl
                    ++ "Net worth: *" ++ whole ++ "\." ++ cents ++ "$*").
  { unfold formatStatus. rewrite Hbadge, Hh, Hamount.
    cbn [healthText append nl].
    rewrite !string_app_assoc. reflexivity. }
  split; [exact Hbadge|].
  split; [rewrite Hh; reflexivity|].
  split; [exact Htext|].
  split; [exact Hwhole|].
  split; [exact Hcents|].
  rewrite Htext. unfold dots_escaped.
  change ("*N/A*" ++ nl ++ nl ++ "Health factor: *N/A*" ++ nl
          ++ "Net worth: *" ++ whole ++ "\." ++ cents ++ "$*")
    with (("*N/A*" ++ nl ++ nl ++ "Health factor: *N/A*" ++ nl
           ++ "Net worth: *") ++ (whole ++ escaped_dot ++ cents ++ "$*")).
  rewrite <- string_app_assoc.
  rewrite dots_escaped_app.
  - apply dots_escaped_no_dot. rewrite no_dot_app.
    rewrite (all_digits_no_dot _ Hcents). reflexivity.
  - rewrite no_dot_app. rewrite (all_digits_no_dot _ Hwhole). reflexivity.
Qed.

Lemma status_text_without_health_factor_witness :
  formatStatus defaultEnvironment (mkUserStatus None (dec 1234567 3))
  = "*N/A*" ++ nl ++ nl ++ "Health factor: *N/A*" ++ nl
    ++ "Net worth: *1234\.57$*"
  /\ dots_escaped
       (formatStatus defaultEnvironment (mkUserStatus None (dec 1234567 3)))
     = true.
Proof.
  pose proof (status_text_without_health_factor defaultEnvironment
                (mkUserStatus None (dec 1234567 3)) eq_refl
                ltac:(vm_compute; discriminate)) as H.
  split.
  - exact (proj1 (proj2 (proj2 H))).
  - exact (proj2 (proj2 (proj2 (proj2 (proj2 H))))).
Defined.

(** With a health factor the same holds of both numbers; a negative
    one keeps its sign in front. *)
Lemma status_text_examples :
  formatStatus defaultEnvironment (mkUserStatus (Some (dec 1995 3)) (dec 5 1))
  = "*⚠️ Warning ⚠️*" ++ nl ++ nl ++ "Health factor: *2\.00*" ++ nl
    ++ "Net worth: *0\.50$*"
  /\ toFixed 2 (dec (-5) 3) = "-0.01".
Proof. split; reflexivity. Qed.

(** * Further properties *)

(** ** More on the alert decision *)

(** What a call of [getAlertTrigger] can be, by the branch taken. *)
Lemma evaluate_cases (environment : Environment) (st : EngineState)
    (current : UserStatus) :
  (present current = false /\ present (fst st) = true
   /\ evaluate environment st current
      = (Some NoLongerComputable, (current, snd st)))
  \/ (present (fst st) = false
      /\ evaluate environment st current = (None, (current, snd st)))
  \/ (present (fst st) = true
      /\ classifies environment CRITICAL current = true
      /\ evaluate environment st current
         = (Some CriticalLevel, (current, snd st)))
  \/ (present (fst st) = true
      /\ classifies environment WARNING current = true
      /\ evaluate environment st current
         = ((if snd st then None else Some WarningLevel), (current, true)))
  \/ (exists h p,
        healthFactor current = Some h
        /\ healthFactor (fst st) = Some p
        /\ getStatusFromHealth environment h = GOOD
        /\ evaluate environment st current
           = ((if gt (minus h p) (negated (WARNING_DELTA environment))
               then None
               else if gt (minus h p) (negated (CRITITAL_DELTA environment))
                    then Some WarningDelta
                    else Some CriticalDelta),
              (current, false))).
Proof.
  destruct st as [previous latch]. cbn [fst snd].
  destruct (present previous) eqn:Hp.
  - destruct (present current) eqn:Hc.
    + destruct (present_Some _ Hp) as [p Ep].
      destruct (present_Some _ Hc) as [h Eh].
      destruct (getStatusFromHealth environment h) eqn:Ec.
      * right; right; right; right. exists h, p.
        repeat split; try assumption.
        apply good_step; assumption.
      * right; right; right; left.
        assert (Hw : classifies environment WARNING current = true)
          by (unfold classifies; rewrite Eh, Ec; reflexivity).
        repeat split; try assumption.
        apply warning_step; assumption.
      * right; right; left.
        assert (Hw : classifies environment CRITICAL current = true)
          by (unfold classifies; rewrite Eh, Ec; reflexivity).
        repeat split; try assumption.
        apply (critical_step environment (previous, latch)); assumption.
    + left. repeat split.
      rewrite (absent_step environment (previous, latch) current
                 (or_introl Hc)).
      cbn [fst snd]. rewrite Hc, Hp. reflexivity.
  - right; left. split; [reflexivity|].
    rewrite (absent_step environment (previous, latch) current
               (or_intror Hp)).
    cbn [fst snd]. rewrite Hp, andb_false_r. reflexivity.
Qed.

(** X1 - Every trigger names its cause.  When a call fires [t]:
    [NoLongerComputable] means the current health factor is absent and
    the stored one present; [CriticalLevel] means a CRITICAL sample;
    [WarningLevel] means a WARNING sample met with the latch clear,
    and the latch is set afterwards; a delta trigger means a GOOD
    sample whose rounded difference to the baseline is at most
    [-warningDelta], and [WarningDelta] or [CriticalDelta] according
    to its side of [-criticalDelta]; the latch is clear afterwards.
    The level triggers and [NoLongerComputable] leave the latch
    alone. *)
Theorem trigger_cause (environment : Environment) (st : EngineState)
    (current : UserStatus) (t : string) :
  fst (evaluate environment st current) = Some t ->
  let latch' := snd (snd (evaluate environment st current)) in
  (t = NoLongerComputable /\ present current = false
   /\ present (fst st) = true /\ latch' = snd st)
  \/ (t = CriticalLevel /\ present (fst st) = true
      /\ classifies environment CRITICAL current = true /\ latch' = snd st)
  \/ (t = WarningLevel /\ present (fst st) = true
      /\ classifies environment WARNING current = true
      /\ snd st = false /\ latch' = true)
  \/ (exists h p,
        healthFactor current = Some h /\ healthFactor (fst st) = Some p
        /\ getStatusFromHealth environment h = GOOD /\ latch' = false
        /\ (DtoQ (minus h p) <= - DtoQ (WARNING_DELTA environment))%Q
        /\ ((t = WarningDelta
             /\ (- DtoQ (CRITITAL_DELTA environment) < DtoQ (minus h p))%Q)
            \/ (t = CriticalDelta
                /\ (DtoQ (minus h p)
                    <= - DtoQ (CRITITAL_DELTA environment))%Q))).
Proof.
  intros Ht latch'. unfold latch'.
  destruct (evaluate_cases environment st current)
    as [[Hc [Hp E]]|[[Hp E]|[[Hp [Hc E]]|[[Hp [Hc E]]|[h [p [Eh [Ep [Ec E]]]]]]]]];
    rewrite E in Ht |- *; cbn [fst snd] in Ht |- *.
  - left. injection Ht as <-. repeat split; assumption.
  - discriminate Ht.
  - right; left. injection Ht as <-. repeat split; assumption.
  - right; right; left. destruct (snd st); [discriminate Ht|].
    injection Ht as <-. repeat split; assumption.
  - right; right; right. exists h, p.
    destruct (gt (minus h p) (negated (WARNING_DELTA environment))) eqn:G1;
      [discriminate Ht|].
    apply gt_false in G1. rewrite negated_spec in G1.
    repeat (split; [assumption || reflexivity|]).
    destruct (gt (minus h p) (negated (CRITITAL_DELTA environment))) eqn:G2;
      injection Ht as <-.
    + left. split; [reflexivity|].
      apply gt_spec in G2. rewrite negated_spec in G2. exact G2.
    + right. split; [reflexivity|].
      apply gt_false in G2. rewrite negated_spec in G2. exact G2.
Qed.

Lemma triggers_cons (environment : Environment) (st : EngineState)
    (s : UserStatus) (rest : list UserStatus) :
  triggers environment st (s :: rest)
  = fst (evaluate environment st s)
    :: triggers environment (snd (evaluate environment st s)) rest.
Proof.
  cbn [triggers]. destruct (evaluate environment st s) as [t st'].
  reflexivity.
Qed.

(** A fired [WarningLevel] leaves the latch set. *)
Lemma warning_level_sets_latch (environment : Environment) (st : EngineState)
    (s : UserStatus) :
  fst (evaluate environment st s) = Some WarningLevel ->
  snd st = false /\ snd (snd (evaluate environment st s)) = true.
Proof.
  intros Ht.
  destruct (evaluate_cases environment st s)
    as [[Hc [Hp E]]|[[Hp E]|[[Hp [Hc E]]|[[Hp [Hc E]]|[h [p [Eh [Ep [Ec E]]]]]]]]];
    rewrite E in Ht |- *; cbn [fst snd] in Ht |- *; try discriminate Ht.
  - destruct (snd st); [discriminate Ht|]. split; reflexivity.
  - destruct (gt _ _); [discriminate Ht|].
    destruct (gt _ _); discriminate Ht.
Qed.

(** Only a GOOD sample against a present baseline clears a set latch. *)
Lemma latch_cleared_by_good (environment : Environment) (st : EngineState)
    (s : UserStatus) :
  snd st = true ->
  snd (snd (evaluate environment st s)) = false ->
  classifies environment GOOD s = true /\ present (fst st) = true.
Proof.
  intros Hl Hc.
  destruct (evaluate_cases environment st s)
    as [[_ [Hp E]]|[[Hp E]|[[Hp [_ E]]|[[Hp [_ E]]|[h [p [Eh [Ep [Ec E]]]]]]]]];
    rewrite E in Hc; cbn [fst snd] in Hc; try congruence.
  split.
  - unfold classifies. rewrite Eh, Ec. reflexivity.
  - unfold present. rewrite Ep. reflexivity.
Qed.

Lemma set_latch_blocks_warning (environment : Environment)
    (samples : list UserStatus) :
  forall (st : EngineState) (j : nat),
    snd st = true ->
    nth_error (triggers environment st samples) j = Some (Some WarningLevel) ->
    exists k s, (k < j)%nat /\ nth_error samples k = Some s
                /\ classifies environment GOOD s = true.
Proof.
  induction samples as [|s rest IH]; intros st j Hl Hj.
  - destruct j; discriminate Hj.
  - rewrite triggers_cons in Hj. destruct j as [|j]; cbn [nth_error] in Hj.
    + injection Hj as Hj.
      destruct (warning_level_sets_latch environment st s Hj) as [Hf _].
      congruence.
    + destruct (snd (snd (evaluate environment st s))) eqn:Hl'.
      * destruct (IH _ j Hl' Hj) as [k [x [Hk [Hx Hg]]]].
        exists (S k), x. repeat split; [lia | exact Hx | exact Hg].
      * exists O, s. repeat split; [lia|].
        exact (proj1 (latch_cleared_by_good environment st s Hl Hl')).
Qed.

(** X2 - A warning is re-armed only by a GOOD sample.  In any run of
    evaluations, from any state, between two [WarningLevel] triggers
    there is a sample with a health factor that classifies as GOOD;
    CRITICAL samples and samples without health factor in between do
    not re-arm it. *)
Theorem warning_rearmed_only_by_good (environment : Environment)
    (samples : list UserStatus) :
  forall (st : EngineState) (i j : nat),
    (i < j)%nat ->
    nth_error (triggers environment st samples) i = Some (Some WarningLevel) ->
    nth_error (triggers environment st samples) j = Some (Some WarningLevel) ->
    exists k s, (i < k < j)%nat /\ nth_error samples k = Some s
                /\ classifies environment GOOD s = true.
Proof.
  induction samples as [|s rest IH]; intros st i j Hij Hi Hj.
  - destruct i; discriminate Hi.
  - rewrite triggers_cons in Hi, Hj.
    destruct j as [|j]; [lia|]. cbn [nth_error] in Hj.
    destruct i as [|i]; cbn [nth_error] in Hi.
    + injection Hi as Hi.
      destruct (warning_level_sets_latch environment st s Hi) as [_ Hl'].
      destruct (set_latch_blocks_warning environment rest _ j Hl' Hj)
        as [k [x [Hk [Hx Hg]]]].
      exists (S k), x. repeat split; [lia | lia | exact Hx | exact Hg].
    + destruct (IH _ i j ltac:(lia) Hi Hj) as [k [x [Hk [Hx Hg]]]].
      exists (S k), x. repeat split; [lia | lia | exact Hx | exact Hg].
Qed.

(** X3 - No drop, no trigger.  With a positive warning delta, a GOOD
    sample whose health factor is not below the stored one returns no
    trigger and clears the latch, whatever the rounding of the
    difference. *)
Theorem no_drop_no_trigger (environment : Environment)
    (previous current : UserStatus) (h p : Decimal) (latch : bool) :
  healthFactor current = Some h ->
  healthFactor previous = Some p ->
  getStatusFromHealth environment h = GOOD ->
  (0 < DtoQ (WARNING_DELTA environment))%Q ->
  (DtoQ p <= DtoQ h)%Q ->
  evaluate environment (previous, latch) current = (None, (current, false)).
Proof.
  intros Eh Ep Ec Hwd Hrise.
  rewrite (good_step environment previous current h p latch Eh Ep Ec).
  assert (Hexact : (0 <= DtoQ (minus_exact h p))%Q).
  { rewrite minus_exact_spec. apply (Qplus_le_l _ _ (DtoQ p)).
    ring_simplify. exact Hrise. }
  assert (Hdelta : (0 <= DtoQ (minus h p))%Q).
  { unfold minus. apply DtoQ_nonneg, finalise_nonneg, DtoQ_nonneg, Hexact. }
  assert (G : gt (minus h p) (negated (WARNING_DELTA environment)) = true).
  { apply gt_spec. rewrite negated_spec.
    eapply Qlt_le_trans; [|exact Hdelta].
    apply Qopp_lt_compat in Hwd. exact Hwd. }
  rewrite G. reflexivity.
Qed.

Lemma no_drop_no_trigger_witness :
  evaluate defaultEnvironment (sample (dec 30 1), true) (sample (dec 35 1))
  = (None, (sample (dec 35 1), false)).
Proof.
  apply (no_drop_no_trigger defaultEnvironment (sample (dec 30 1))
           (sample (dec 35 1)) (dec 35 1) (dec 30 1) true);
    [reflexivity | reflexivity | reflexivity | reflexivity
    | vm_compute; discriminate].
Defined.

Lemma trigger_cause_witness :
  exists h p,
    healthFactor (sample (dec 19 1)) = Some h
    /\ healthFactor (sample (dec 30 1)) = Some p
    /\ (DtoQ (minus h p) <= - DtoQ (CRITITAL_DELTA lowLevelEnvironment))%Q.
Proof.
  destruct (trigger_cause lowLevelEnvironment (sample (dec 30 1), false)
              (sample (dec 19 1)) CriticalDelta eq_refl)
    as [[H _]|[[H _]|[[H _]|[h [p [Eh [Ep [_ [_ [_ [[H _]|[_ H]]]]]]]]]]]];
    try discriminate H.
  exists h, p. repeat split; assumption.
Defined.

Lemma warning_rearmed_only_by_good_witness :
  exists k s,
    (0 < k < 4)%nat
    /\ nth_error [sample (dec 20 1); sample (dec 20 1); sample (dec 20 1);
                  sample (dec 30 1); sample (dec 20 1)] k = Some s
    /\ classifies defaultEnvironment GOOD s = true.
Proof.
  apply (warning_rearmed_only_by_good defaultEnvironment
           [sample (dec 20 1); sample (dec 20 1); sample (dec 20 1);
            sample (dec 30 1); sample (dec 20 1)]
           initialEngine 0 4);
    [lia | reflexivity | reflexivity].
Defined.

(** ** More on the rendered texts *)

Lemma string_app_nil_r (s : string) : s ++ EmptyString = s.
Proof.
  induction s as [|c s IH]; [reflexivity|].
  cbn [append]. rewrite IH. reflexivity.
Qed.

Lemma well_escaped_no_dot (s : string) : no_dot s = true -> well_escaped s.
Proof.
  induction s as [|c s IH]; intros H b t Ht.
  - apply Ht.
  - cbn [no_dot] in H. apply andb_true_iff in H as [Hc Hs].
    apply negb_true_iff in Hc.
    cbn [append dots_escaped_from]. rewrite Hc. apply IH; assumption.
Qed.

Lemma well_escaped_app (a b : string) :
  well_escaped a -> well_escaped b -> well_escaped (a ++ b).
Proof.
  intros Ha Hb x t Ht. rewrite string_app_assoc.
  apply Ha. intros b'. apply Hb, Ht.
Qed.

Lemma well_escaped_point (a c : string) :
  no_dot a = true -> no_dot c = true ->
  well_escaped (a ++ escaped_dot ++ c).
Proof.
  intros Ha Hc b t Ht.
  rewrite !string_app_assoc. rewrite dots_escaped_app by exact Ha.
  apply (well_escaped_no_dot c Hc). exact Ht.
Qed.

Lemma well_escaped_sound (s : string) :
  well_escaped s -> dots_escaped s = true.
Proof.
  intros H. unfold dots_escaped.
  rewrite <- (string_app_nil_r s). apply H. reflexivity.
Qed.

Lemma toFixed_2_shape (x : Decimal) :
  toFixed 2 x
  = sign_text x ++ integer_digits (scaled_magnitude 2 x / 100)
    ++ "." ++ fraction_digits 2 (scaled_magnitude 2 x mod 100).
Proof. reflexivity. Qed.

Lemma sign_text_no_dot (x : Decimal) : no_dot (sign_text x) = true.
Proof. unfold sign_text. destruct (coef x <? 0)%Z; reflexivity. Qed.

Lemma cents_all_digits (x : Decimal) :
  all_digits (fraction_digits 2 (scaled_magnitude 2 x mod 100)) = true.
Proof. apply fraction_digits_2, Z.mod_pos_bound. reflexivity. Qed.

Lemma amountText_shape (x : Decimal) :
  amountText x
  = (sign_text x ++ integer_digits (scaled_magnitude 2 x / 100))
    ++ escaped_dot ++ fraction_digits 2 (scaled_magnitude 2 x mod 100).
Proof.
  unfold amountText. rewrite toFixed_2_shape.
  rewrite <- string_app_assoc. apply replace_dot_first.
  rewrite no_dot_app, sign_text_no_dot.
  apply all_digits_no_dot, integer_digits_all_digits.
Qed.

Lemma amountText_well_escaped (x : Decimal) : well_escaped (amountText x).
Proof.
  rewrite amountText_shape. apply well_escaped_point.
  - rewrite no_dot_app, sign_text_no_dot.
    apply all_digits_no_dot, integer_digits_all_digits.
  - apply all_digits_no_dot, cents_all_digits.
Qed.

Lemma healthText_well_escaped (h : option Decimal) :
  well_escaped (healthText h).
Proof.
  destruct h as [d|].
  - apply amountText_well_escaped.
  - apply well_escaped_no_dot. reflexivity.
Qed.

Lemma getStatusString_well_escaped (environment : Environment)
    (s : UserStatus) :
  well_escaped (getStatusString environment s).
Proof.
  apply well_escaped_no_dot. unfold getStatusString.
  destruct (healthFactor s) as [h|]; [|reflexivity].
  destruct (getStatusFromHealth environment h); reflexivity.
Qed.

Ltac escaped_pieces :=
  repeat first
    [ apply well_escaped_app
    | apply amountText_well_escaped
    | apply healthText_well_escaped
    | apply getStatusString_well_escaped
    | apply well_escaped_no_dot; reflexivity ].

(** X4 - How an amount is rendered.  For every decimal,
    [toFixed(2).replace('.', '\.')] is an optional minus sign, a
    non-empty run of digits, one escaped point and exactly two digits;
    replacing the first point only is enough. *)
Theorem amount_text_shape (x : Decimal) :
  let whole := integer_digits (scaled_magnitude 2 x / 100) in
  let cents := fraction_digits 2 (scaled_magnitude 2 x mod 100) in
  amountText x
  = (if (coef x <? 0)%Z then "-" else EmptyString)
    ++ whole ++ "\." ++ cents
  /\ all_digits whole = true
  /\ all_digits cents = true
  /\ String.length cents = 2%nat
  /\ dots_escaped (amountText x) = true.
Proof.
  cbv zeta. split.
  { rewrite amountText_shape. rewrite string_app_assoc. reflexivity. }
  split; [apply integer_digits_all_digits|].
  split; [apply cents_all_digits|].
  split; [reflexivity|].
  apply well_escaped_sound, amountText_well_escaped.
Qed.

(** X7 - Every point of the status text is escaped, for every sample:
    with or without health factor, whatever the badge and the sign of
    the numbers. *)
Theorem status_text_dots_escaped (environment : Environment)
    (s : UserStatus) :
  dots_escaped (formatStatus environment s) = true.
Proof.
  apply well_escaped_sound. unfold formatStatus. escaped_pieces.
Qed.

Lemma getDifferenceStatusMessage_well_escaped (environment : Environment)
    (status previousStatus : UserStatus) :
  well_escaped (getDifferenceStatusMessage environment status previousStatus).
Proof. unfold getDifferenceStatusMessage. escaped_pieces. Qed.

(** X8 - Every point of the previous-to-current text of
    [getDifferenceStatusMessage] is escaped, for every pair of
    samples. *)
Theorem difference_text_dots_escaped (environment : Environment)
    (status previousStatus : UserStatus) :
  dots_escaped (getDifferenceStatusMessage environment status previousStatus)
  = true.
Proof.
  apply well_escaped_sound, getDifferenceStatusMessage_well_escaped.
Qed.

Lemma replaceAll_no_dot (r s : string) :
  no_dot s = true -> replaceAll_dot r s = s.
Proof.
  induction s as [|c s IH]; [reflexivity|].
  cbn [no_dot replaceAll_dot]. intros H.
  apply andb_true_iff in H as [Hc Hs]. apply negb_true_iff in Hc.
  rewrite Hc, (IH Hs). reflexivity.
Qed.

Lemma getAlertTrigger_no_dot (environment : Environment)
    (context : AlertContext) (latch : bool) (t : string) :
  fst (getAlertTrigger environment context latch) = Some t -> no_dot t = true.
Proof.
  unfold getAlertTrigger.
  destruct (healthFactor (ctx_status context)) as [c|],
           (healthFactor (ctx_previousStatus context)) as [p|];
    cbn [fst]; try discriminate.
  - destruct (getStatusFromHealth environment c).
    + destruct (gt _ _); [discriminate|].
      destruct (gt _ _); intros [= <-]; reflexivity.
    + destruct latch; [discriminate | intros [= <-]; reflexivity].
    + intros [= <-]; reflexivity.
  - intros [= <-]; reflexivity.
Qed.

Lemma evaluate_trigger (environment : Environment) (st : EngineState)
    (s : UserStatus) :
  fst (evaluate environment st s)
  = fst (getAlertTrigger environment (mkAlertContext (fst st) s) (snd st)).
Proof.
  unfold evaluate. destruct (getAlertTrigger _ _ _). reflexivity.
Qed.

(** X9 - The alert text.  When the fetch returns a sample and a trigger
    [t] fires, [getAlertMessage] returns the header, the trigger text
    unchanged (no trigger text holds a point, so [replaceAll] leaves
    it alone) and the previous-to-current text against the baseline
    held before the call; the text is a truthy string, so
    [checkHealth] sends it, and every point of it is escaped. *)
Theorem alert_message_text (environment : Environment) (w : World)
    (s : UserStatus) (t : string) :
  marketStates w (fetched w) = Returned s ->
  fst (evaluate environment (engine w) s) = Some t ->
  let text :=
    "‼️ ALERT ‼️" ++ nl ++ "Trigger: `" ++ t ++ "`" ++ nl ++ nl
    ++ getDifferenceStatusMessage environment s (previousStatus w) in
  fst (getAlertMessage environment w) = Returned (Some text)
  /\ truthy text = true
  /\ dots_escaped text = true.
Proof.
  intros Es Et text.
  assert (Hdot : no_dot t = true).
  { rewrite evaluate_trigger in Et.
    exact (getAlertTrigger_no_dot _ _ _ _ Et). }
  split; [|split].
  - rewrite (getAlertMessage_fetched environment w s Es), Et.
    cbn [fst option_map]. unfold alertText.
    rewrite (replaceAll_no_dot _ _ Hdot). reflexivity.
  - reflexivity.
  - apply well_escaped_sound. unfold text.
    do 7 (apply well_escaped_app;
          [apply well_escaped_no_dot; first [exact Hdot | reflexivity]|]).
    apply getDifferenceStatusMessage_well_escaped.
Qed.

Lemma alert_message_text_witness :
  truthy
    ("‼️ ALERT ‼️" ++ nl ++ "Trigger: `" ++ CriticalLevel ++ "`" ++ nl ++ nl
     ++ getDifferenceStatusMessage defaultEnvironment (sample (dec 10 1))
          initialPreviousStatus)
  = true.
Proof.
  exact (proj1 (proj2
    (alert_message_text defaultEnvironment
       (initialWorld (fun _ => Returned (sample (dec 10 1))) (fun _ => None))
       (sample (dec 10 1)) CriticalLevel eq_refl eq_refl))).
Defined.

Lemma read_integer_digits (n : Z) :
  read_number (integer_digits n) = Some (Z.to_N n).
Proof.
  unfold read_number, integer_digits.
  rewrite NilEmpty.usu. cbn [option_map].
  rewrite DecimalN.Unsigned.of_to. reflexivity.
Qed.

Lemma read_fraction_digits_2 (r : Z) :
  (0 <= r < 100)%Z ->
  read_number (fraction_digits 2 r) = Some (Z.to_N r).
Proof.
  intros H.
  rewrite <- (Z2Nat.id r) by lia.
  assert (Hn : (Z.to_nat r < 100)%nat) by lia.
  generalize dependent (Z.to_nat r). clear r H. intros n Hn.
  do 100 (destruct n as [|n]; [reflexivity|]). lia.
Qed.

(** X5 - The number shown is the amount rounded half-up to two places.
    Read back as numbers, the digits before and after the point of
    [toFixed(2)] are [q / 100] and [q mod 100] for the one integer [q]
    with [q - 1/2 <= 100 * |x| < q + 1/2]. *)
Theorem shown_amount_is_rounded (x : Decimal) :
  let q := scaled_magnitude 2 x in
  let whole := integer_digits (q / 100) in
  let cents := fraction_digits 2 (q mod 100) in
  toFixed 2 x = (if (coef x <? 0)%Z then "-" else EmptyString)
                ++ whole ++ "." ++ cents
  /\ read_number whole = Some (Z.to_N (q / 100))
  /\ read_number cents = Some (Z.to_N (q mod 100))
  /\ (0 <= q)%Z
  /\ (inject_Z q - (1 # 2) <= inject_Z 100 * Qabs (DtoQ x))%Q
  /\ (inject_Z 100 * Qabs (DtoQ x) < inject_Z q + (1 # 2))%Q.
Proof.
  cbv zeta.
  split; [reflexivity|].
  split; [apply read_integer_digits|].
  split; [apply read_fraction_digits_2, Z.mod_pos_bound; reflexivity|].
  destruct x as [c s]. unfold scaled_magnitude, DtoQ; cbn [coef scale Qabs].
  set (n := Z.abs c). assert (Hn : (0 <= n)%Z) by apply Z.abs_nonneg.
  destruct (s <=? 2)%nat eqn:Es.
  - apply Nat.leb_le in Es.
    assert (Hp : (Zpos (pow10 (2 - s)) * Zpos (pow10 s) = 100)%Z).
    { rewrite <- pow10_add. replace (2 - s + s)%nat with 2%nat by lia.
      reflexivity. }
    assert (H0 : (0 < Zpos (pow10 (2 - s)))%Z) by reflexivity.
    assert (H1 : (0 < Zpos (pow10 s))%Z) by reflexivity.
    set (a := Zpos (pow10 (2 - s))) in *. set (P := Zpos (pow10 s)) in *.
    split; [nia|].
    unfold Qle, Qlt, Qminus, Qplus, Qmult, Qopp, inject_Z;
      cbn [Qnum Qden]. rewrite !Pos2Z.inj_mul. fold P.
    split; nia.
  - apply Nat.leb_gt in Es.
    assert (Hp : (Zpos (pow10 s) = 100 * Zpos (pow10 (s - 2)))%Z).
    { replace s with (2 + (s - 2))%nat at 1 by lia.
      rewrite pow10_add. reflexivity. }
    assert (Hten : (Zpos (pow10 (s - 2)) = 10 * Zpos (pow10 (s - 3)))%Z).
    { replace (s - 2)%nat with (S (s - 3)) by lia.
      cbn [pow10]. apply Pos2Z.inj_mul. }
    assert (H0 : (0 < Zpos (pow10 (s - 3)))%Z) by reflexivity.
    set (u := Zpos (pow10 (s - 2))) in *. set (P := Zpos (pow10 s)) in *.
    set (v := Zpos (pow10 (s - 3))) in *.
    assert (Hhalf : (u / 2 = 5 * v)%Z).
    { rewrite Hten. replace (10 * v)%Z with (5 * v * 2)%Z by ring.
      apply Z.div_mul. lia. }
    rewrite Hhalf.
    pose proof (Z.div_mod (n + 5 * v) u ltac:(lia)) as Hdm.
    pose proof (Z.mod_pos_bound (n + 5 * v) u ltac:(lia)) as Hm.
    set (q := ((n + 5 * v) / u)%Z) in *.
    split; [apply Z.div_pos; lia|].
    unfold Qle, Qlt, Qminus, Qplus, Qmult, Qopp, inject_Z;
      cbn [Qnum Qden]. rewrite !Pos2Z.inj_mul. fold P.
    split; nia.
Qed.

(** X6 - The badge shows the band.  With
    [criticalLevel < warningLevel], the badge of [getStatusString] is
    "N/A" exactly when the health factor is absent, and for a health
    factor [h] it is Good exactly when [h >= warningLevel], Warning
    exactly when [criticalLevel <= h < warningLevel] and Critical
    exactly when [h < criticalLevel]. *)
Theorem badge_shows_band (environment : Environment) (s : UserStatus) :
  (DtoQ (CRITICAL_LEVEL environment) < DtoQ (WARNING_LEVEL environment))%Q ->
  (getStatusString environment s = "N/A" <-> healthFactor s = None)
  /\ (forall h, healthFactor s = Some h ->
        (getStatusString environment s = "✅ Good ✅"
         <-> (DtoQ (WARNING_LEVEL environment) <= DtoQ h)%Q)
        /\ (getStatusString environment s = "⚠️ Warning ⚠️"
            <-> (DtoQ (CRITICAL_LEVEL environment) <= DtoQ h
                 /\ DtoQ h < DtoQ (WARNING_LEVEL environment))%Q)
        /\ (getStatusString environment s = "⛔️ Critical ⛔️"
            <-> (DtoQ h < DtoQ (CRITICAL_LEVEL environment))%Q)).
Proof.
  intros Hlevels. split.
  - unfold getStatusString. destruct (healthFactor s) as [h|].
    + destruct (getStatusFromHealth environment h);
        split; intros H; discriminate H.
    + split; reflexivity.
  - intros h Eh. unfold getStatusString. rewrite Eh.
    rewrite <- classify_GOOD, <- classify_WARNING.
    assert (Hc : getStatusFromHealth environment h = CRITICAL
                 <-> (DtoQ h < DtoQ (CRITICAL_LEVEL environment))%Q).
    { rewrite classify_CRITICAL. split; [tauto|].
      intros H. split; [exact H|]. eapply Qlt_trans; eassumption. }
    rewrite <- Hc.
    destruct (getStatusFromHealth environment h);
      repeat split; intros H; first [reflexivity | discriminate H].
Qed.

Lemma badge_shows_band_witness :
  getStatusString defaultEnvironment (sample (dec 16 1)) = "⛔️ Critical ⛔️".
Proof.
  apply (proj2 (badge_shows_band defaultEnvironment (sample (dec 16 1))
                  eq_refl) (dec 16 1) eq_refl).
  reflexivity.
Defined.

(** ** More on the poll loop *)

Lemma alertText_truthy (environment : Environment) (t : string)
    (s p : UserStatus) : truthy (alertText environment t s p) = true.
Proof. reflexivity. Qed.

(** A tick whose fetch returned a sample and fired nothing. *)
Lemma tick_silent (environment : Environment) (w : World) (s : UserStatus) :
  marketStates w (fetched w) = Returned s ->
  fst (evaluate environment (engine w) s) = None ->
  tick environment w
  = mkWorld (marketStates w) (S (fetched w)) (transport w) (sendCalls w)
            (delivered w) (unhandled w) (logged w) (S (pendingTimers w))
            s (snd (snd (evaluate environment (engine w) s))).
Proof.
  intros Es Et. rewrite tick_unfold.
  rewrite (getAlertMessage_fetched environment w s Es), Et. reflexivity.
Qed.

(** A tick whose fetch returned a sample, fired, and delivered. *)
Lemma tick_alert (environment : Environment) (w : World) (s : UserStatus)
    (t : string) :
  marketStates w (fetched w) = Returned s ->
  fst (evaluate environment (engine w) s) = Some t ->
  transport w (sendCalls w) = None ->
  tick environment w
  = mkWorld (marketStates w) (S (fetched w)) (transport w) (S (sendCalls w))
            (delivered w
             ++ [(TELEGRAM_BOT_CHAT_ID environment,
                  alertText environment t s (previousStatus w))])%list
            (unhandled w) (logged w) (S (pendingTimers w))
            s (snd (snd (evaluate environment (engine w) s))).
Proof.
  intros Es Et Ht. rewrite tick_unfold.
  rewrite (getAlertMessage_fetched environment w s Es), Et.
  cbn [option_map]. rewrite alertText_truthy.
  unfold sendMessage; cbn [transport sendCalls]. rewrite Ht. reflexivity.
Qed.

(** What no tick touches, and what every tick counts. *)
Lemma tick_frame (environment : Environment) (w : World) :
  marketStates (tick environment w) = marketStates w
  /\ transport (tick environment w) = transport w
  /\ fetched (tick environment w) = S (fetched w)
  /\ unhandled (tick environment w) = unhandled w
  /\ (sendCalls w <= sendCalls (tick environment w) <= 2 + sendCalls w)%nat
  /\ (exists l, delivered (tick environment w) = (delivered w ++ l)%list
                /\ (List.length l <= 1)%nat).
Proof.
  rewrite tick_unfold.
  assert (Hnil : forall d : list (string * string), d = (d ++ [])%list)
    by (intros d; symmetry; apply app_nil_r).
  destruct (marketStates w (fetched w)) as [s|e] eqn:Es.
  - rewrite (getAlertMessage_fetched environment w s Es).
    destruct (fst (evaluate environment (engine w) s)) as [t|];
      cbn [option_map].
    + rewrite alertText_truthy.
      unfold sendMessage; cbn [transport sendCalls].
      destruct (transport w (sendCalls w)) as [e1|];
        [cbn [transport sendCalls];
         destruct (transport w (S (sendCalls w))) as [e2|]|];
        cbn; repeat split; try lia;
        first [ exists []; split; [apply Hnil | cbn; lia]
              | eexists [_]; split; [reflexivity | cbn; lia] ].
    + cbn. repeat split; try lia. exists []. split; [apply Hnil | cbn; lia].
  - rewrite (getAlertMessage_thrown environment w e Es).
    unfold sendMessage; cbn [transport sendCalls].
    destruct (transport w (sendCalls w)) as [e2|];
      cbn; repeat split; try lia;
      first [ exists []; split; [apply Hnil | cbn; lia]
            | eexists [_]; split; [reflexivity | cbn; lia] ].
Qed.

Lemma tick_verdict (environment : Environment) (w : World) :
  (pendingTimers (tick environment w) = S (pendingTimers w)
   /\ logged (tick environment w) = logged w
   /\ ~ recovery_fails environment w)
  \/ (pendingTimers (tick environment w) = pendingTimers w
      /\ (exists e, logged (tick environment w) = (logged w ++ [e])%list)
      /\ recovery_fails environment w).
Proof.
  rewrite tick_unfold. unfold recovery_fails.
  destruct (marketStates w (fetched w)) as [s|e] eqn:Es.
  - rewrite (getAlertMessage_fetched environment w s Es).
    destruct (fst (evaluate environment (engine w) s)) as [t|] eqn:Et;
      cbn [option_map].
    + rewrite alertText_truthy.
      unfold sendMessage; cbn [transport sendCalls].
      destruct (transport w (sendCalls w)) as [e1|] eqn:H0;
        [cbn [transport sendCalls];
         destruct (transport w (S (sendCalls w))) as [e2|] eqn:H1|].
      * right. cbn. repeat split; [eauto|].
        right. exists s, t, e1, e2. repeat split; first [assumption | reflexivity].
      * left. cbn. repeat split.
        intros [[x [y [H _]]]|[x [y [z [v [_ [_ [_ H]]]]]]]]; discriminate H.
      * left. cbn. repeat split.
        intros [[x [y [H _]]]|[x [y [z [v [_ [_ [H _]]]]]]]]; discriminate H.
    + left. cbn. repeat split.
      intros [[x [y [H _]]]|[x [y [z [v [Hs [H _]]]]]]]; [discriminate H|].
      injection Hs as <-. congruence.
  - rewrite (getAlertMessage_thrown environment w e Es).
    unfold sendMessage; cbn [transport sendCalls].
    destruct (transport w (sendCalls w)) as [e2|] eqn:H0.
    + right. cbn. repeat split; [eauto|].
      left. exists e, e2. split; first [assumption | reflexivity].
    + left. cbn. repeat split.
      intros [[x [y [_ H]]]|[x [y [z [v [H _]]]]]]; discriminate H.
Qed.

(** X16 - When the loop breaks.  A tick leaves the timer unarmed exactly
    when the delivery of its error note is rejected (after a failed
    fetch, or after a rejected alert), and then logs one warning; in
    every other case it arms the timer once and logs nothing. *)
Theorem tick_stops_iff_recovery_fails (environment : Environment)
    (w : World) :
  (pendingTimers (tick environment w) = pendingTimers w
   <-> recovery_fails environment w)
  /\ (pendingTimers (tick environment w) = S (pendingTimers w)
      <-> ~ recovery_fails environment w)
  /\ (recovery_fails environment w ->
      exists e, logged (tick environment w) = (logged w ++ [e])%list)
  /\ (~ recovery_fails environment w ->
      logged (tick environment w) = logged w).
Proof.
  destruct (tick_verdict environment w) as [[Hp [Hl Hn]]|[Hp [Hl Hf]]].
  - split; [|split; [|split]].
    + split; [intros H; rewrite Hp in H; lia | intros H; contradiction].
    + split; [intros _; exact Hn | intros _; exact Hp].
    + intros H; contradiction.
    + intros _; exact Hl.
  - split; [|split; [|split]].
    + split; [intros _; exact Hf | intros _; exact Hp].
    + split; [intros H; rewrite Hp in H; lia | intros H; contradiction].
    + intros _; exact Hl.
    + intros H; contradiction.
Qed.

Lemma start_note_frame (environment : Environment) (w : World) :
  let w1 :=
    match sendMessage (TELEGRAM_BOT_CHAT_ID environment) "ℹ️ Bot started" w with
    | (Returned _, w') => w'
    | (Thrown e, w') => logger_warn e w'
    end in
  pendingTimers w1 = pendingTimers w
  /\ marketStates w1 = marketStates w
  /\ transport w1 = transport w
  /\ fetched w1 = fetched w
  /\ sendCalls w1 = S (sendCalls w)
  /\ engine w1 = engine w.
Proof.
  cbv zeta. unfold sendMessage.
  destruct (transport w (sendCalls w)); repeat split.
Qed.

(** X17 - Ticks never overlap.  Started with no timer pending, the
    process has at most one timer pending after any number of
    firings, whatever the fetches and deliveries do. *)
Theorem at_most_one_timer (environment : Environment) (n : nat) (w : World) :
  pendingTimers w = 0%nat ->
  (pendingTimers (run environment n w) <= 1)%nat.
Proof.
  intros H0. induction n as [|n IH].
  - cbn [run]. unfold startCheckingHealth.
    pose proof (start_note_frame environment w) as [Hp _].
    cbv zeta in Hp.
    match goal with
    | |- (pendingTimers (tick _ ?w1) <= 1)%nat =>
        destruct (tick_outcome environment w1) as [E|[E _]]; rewrite E
    end; rewrite Hp, H0; lia.
  - cbn [run]. unfold fire.
    destruct (pendingTimers (run environment n w)) as [|k] eqn:Ek;
      [rewrite Ek; lia|].
    match goal with
    | |- (pendingTimers (tick _ ?w1) <= 1)%nat =>
        destruct (tick_outcome environment w1) as [E|[E _]]; rewrite E
    end; cbn [pendingTimers]; lia.
Qed.

Lemma at_most_one_timer_witness :
  (pendingTimers (run defaultEnvironment 3 outageWorld) <= 1)%nat.
Proof.
  exact (at_most_one_timer defaultEnvironment 3 outageWorld eq_refl).
Defined.



Lemma run_frame (environment : Environment) (n : nat) (w : World) :
  marketStates (run environment n w) = marketStates w
  /\ transport (run environment n w) = transport w.
Proof.
  induction n as [|n [IHm IHt]].
  - cbn [run]. unfold startCheckingHealth.
    pose proof (start_note_frame environment w) as [_ [Hm [Ht _]]].
    cbv zeta in Hm, Ht.
    match goal with
    | |- marketStates (tick _ ?w1) = _ /\ _ =>
        destruct (tick_frame environment w1) as [Em [Et _]]
    end.
    split; congruence.
  - cbn [run]. unfold fire.
    destruct (pendingTimers (run environment n w)); [split; assumption|].
    match goal with
    | |- marketStates (tick _ ?w1) = _ /\ _ =>
        destruct (tick_frame environment w1) as [Em [Et _]]
    end.
    cbn [marketStates transport] in Em, Et. split; congruence.
Qed.

(** X19 - With a transport that never rejects, polling never stops.
    Whatever the fetches return or throw, after [n] firings one timer
    is pending, exactly [n + 1] fetches were made and nothing was
    logged. *)
Theorem working_transport_keeps_polling (environment : Environment)
    (n : nat) (w : World) :
  pendingTimers w = 0%nat ->
  (forall k, transport w k = None) ->
  pendingTimers (run environment n w) = 1%nat
  /\ fetched (run environment n w) = (fetched w + S n)%nat
  /\ logged (run environment n w) = logged w.
Proof.
  intros H0 Hsend. induction n as [|n [IHp [IHf IHl]]].
  - cbn [run]. unfold startCheckingHealth.
    pose proof (start_note_frame environment w) as [Hp [_ [Ht [Hf _]]]].
    cbv zeta in Hp, Ht, Hf.
    assert (Hl : logged
                   (match sendMessage (TELEGRAM_BOT_CHAT_ID environment)
                            "ℹ️ Bot started" w with
                    | (Returned _, w') => w'
                    | (Thrown e, w') => logger_warn e w'
                    end) = logged w)
      by (unfold sendMessage; rewrite Hsend; reflexivity).
    match goal with
    | |- pendingTimers (tick _ ?w1) = _ /\ _ =>
        destruct (tick_verdict environment w1) as [[Ep [El _]]|[_ [_ Hfail]]];
        [destruct (tick_frame environment w1) as [_ [_ [Ef _]]]|]
    end.
    + rewrite Ep, Ef, El, Hp, Hf, Hl, H0. repeat split; lia.
    + exfalso.
      destruct Hfail as [[e1 [e2 [_ H]]]|[s [t [e1 [e2 [_ [_ [H _]]]]]]]];
        rewrite Ht, Hsend in H; discriminate H.
  - pose proof (run_frame environment n w) as [_ Ht].
    cbn [run]. unfold fire. rewrite IHp.
    match goal with
    | |- pendingTimers (tick _ ?w1) = _ /\ _ =>
        destruct (tick_verdict environment w1) as [[Ep [El _]]|[_ [_ Hfail]]];
        [destruct (tick_frame environment w1) as [_ [_ [Ef _]]]|]
    end.
    + rewrite Ep, Ef, El. cbn [pendingTimers fetched logged].
      rewrite IHf, IHl. repeat split; lia.
    + exfalso.
      destruct Hfail as [[e1 [e2 [_ H]]]|[s [t [e1 [e2 [_ [_ [H _]]]]]]]];
        cbn [transport sendCalls] in H; rewrite Ht, Hsend in H;
        discriminate H.
Qed.

Lemma working_transport_keeps_polling_witness :
  pendingTimers
    (run defaultEnvironment 2
         (initialWorld (fun _ => Thrown "timeout") (fun _ => None)))
  = 1%nat.
Proof.
  exact (proj1 (working_transport_keeps_polling defaultEnvironment 2
                  (initialWorld (fun _ => Thrown "timeout") (fun _ => None))
                  eq_refl (fun k => eq_refl))).
Defined.

Lemma engine_after_app (environment : Environment) (a b : list UserStatus) :
  forall st,
    engine_after environment st (a ++ b)
    = engine_after environment (engine_after environment st a) b.
Proof.
  induction a as [|s a IH]; intros st; [reflexivity|].
  cbn [app engine_after]. apply IH.
Qed.

Lemma alerts_app (environment : Environment) (a b : list UserStatus) :
  forall st,
    alerts environment st (a ++ b)
    = (alerts environment st a
       ++ alerts environment (engine_after environment st a) b)%list.
Proof.
  induction a as [|s a IH]; intros st; [reflexivity|].
  cbn [app alerts engine_after]. rewrite IH, app_assoc. reflexivity.
Qed.

(** One healthy tick, in terms of [alert_of]. *)
Lemma tick_healthy (environment : Environment) (w : World) (s : UserStatus) :
  marketStates w (fetched w) = Returned s ->
  transport w (sendCalls w) = None ->
  engine (tick environment w) = snd (evaluate environment (engine w) s)
  /\ delivered (tick environment w)
     = (delivered w ++ alert_of environment (engine w) s)%list
  /\ pendingTimers (tick environment w) = S (pendingTimers w)
  /\ fetched (tick environment w) = S (fetched w)
  /\ logged (tick environment w) = logged w
  /\ (sendCalls (tick environment w)
      = sendCalls w + List.length (alert_of environment (engine w) s))%nat.
Proof.
  intros Es Ht.
  assert (Hfst : fst (snd (evaluate environment (engine w) s)) = s)
    by (unfold evaluate; destruct (getAlertTrigger _ _ _); reflexivity).
  unfold alert_of.
  destruct (fst (evaluate environment (engine w) s)) as [t|] eqn:Et.
  - rewrite (tick_alert environment w s t Es Et Ht).
    unfold engine at 1.
    cbn [previousStatus warningWasSent delivered pendingTimers fetched
         logged sendCalls List.length fst].
    destruct (evaluate environment (engine w) s) as [x [p l]].
    cbn [fst snd] in *. subst p. repeat split; lia.
  - rewrite (tick_silent environment w s Es Et).
    unfold engine at 1.
    cbn [previousStatus warningWasSent delivered pendingTimers fetched
         logged sendCalls List.length].
    destruct (evaluate environment (engine w) s) as [x [p l]].
    cbn [fst snd] in *. subst p. rewrite app_nil_r. repeat split; lia.
Qed.

(** X20 - The loop is the engine run over the fetched samples.  When
    every fetch returns a sample and every delivery works, after [n]
    firings the engine variables are those of [evaluate] folded over
    the first [n + 1] samples, and the operator has received the
    start-up note followed by exactly the alerts of that run's
    triggers, in order. *)
Theorem poll_loop_delivers_engine_alerts (environment : Environment)
    (f : nat -> UserStatus) (n : nat)
    (states : nat -> Outcome UserStatus) (sends : nat -> option string) :
  (forall i, states i = Returned (f i)) ->
  (forall k, sends k = None) ->
  let w := run environment n (initialWorld states sends) in
  let samples := map f (seq 0 (S n)) in
  engine w = engine_after environment initialEngine samples
  /\ delivered w
     = (TELEGRAM_BOT_CHAT_ID environment, "ℹ️ Bot started")
       :: alerts environment initialEngine samples
  /\ fetched w = S n
  /\ pendingTimers w = 1%nat.
Proof.
  intros Hstates Hsends. cbv zeta.
  induction n as [|n [IHe [IHd [IHf IHp]]]].
  - cbn [run]. unfold startCheckingHealth, sendMessage, initialWorld.
    cbn [transport sendCalls]. rewrite Hsends.
    match goal with
    | |- engine (tick _ ?w1) = _ /\ _ =>
        destruct (tick_healthy environment w1 (f 0%nat))
          as [Ee [Ed [Ep [Ef _]]]];
        [cbn [marketStates fetched]; apply Hstates
        |cbn [transport sendCalls]; apply Hsends|]
    end.
    rewrite Ee, Ed, Ep, Ef.
    cbn [seq map engine_after alerts delivered pendingTimers fetched].
    unfold engine at 1 2; cbn [previousStatus warningWasSent].
    fold initialEngine. rewrite app_nil_r. repeat split.
  - pose proof (run_frame environment n (initialWorld states sends))
      as [Hm Ht].
    cbn [initialWorld marketStates transport] in Hm, Ht.
    cbn [run]. unfold fire. rewrite IHp.
    match goal with
    | |- engine (tick _ ?w1) = _ /\ _ =>
        destruct (tick_healthy environment w1 (f (S n)))
          as [Ee [Ed [Ep [Ef _]]]];
        [cbn [marketStates fetched]; rewrite Hm, IHf; apply Hstates
        |cbn [transport sendCalls]; rewrite Ht; apply Hsends|]
    end.
    rewrite Ee, Ed, Ep, Ef.
    cbn [delivered pendingTimers fetched].
    unfold engine at 1 2; cbn [previousStatus warningWasSent].
    fold (engine (run environment n (initialWorld states sends))).
    rewrite IHe, IHd, IHf.
    rewrite (seq_S (S n) 0), map_app. cbn [Nat.add map].
    rewrite engine_after_app, alerts_app.
    cbn [engine_after alerts]. rewrite app_nil_r.
    repeat split.
Qed.

Lemma poll_loop_delivers_engine_alerts_witness :
  List.length
    (delivered
       (run defaultEnvironment 4
            (initialWorld
               (fun i => Returned (nth i [sample (dec 20 1); sample (dec 20 1);
                                          sample (dec 20 1); sample (dec 30 1);
                                          sample (dec 20 1)] noDebt))
               (fun _ => None))))
  = 3%nat.
Proof.
  rewrite (proj1 (proj2
    (poll_loop_delivers_engine_alerts defaultEnvironment
       (fun i => nth i [sample (dec 20 1); sample (dec 20 1);
                        sample (dec 20 1); sample (dec 30 1);
                        sample (dec 20 1)] noDebt)
       4 _ (fun _ => None) (fun i => eq_refl) (fun k => eq_refl)))).
  reflexivity.
Defined.

(** X10 - What one tick costs.  Every tick makes exactly one fetch and
    at most two delivery attempts, hands at most one more message to
    the operator and keeps the earlier ones. *)
Theorem tick_accounting (environment : Environment) (w : World) :
  fetched (tick environment w) = S (fetched w)
  /\ (sendCalls w <= sendCalls (tick environment w) <= 2 + sendCalls w)%nat
  /\ (exists l, delivered (tick environment w) = (delivered w ++ l)%list
                /\ (List.length l <= 1)%nat)
  /\ unhandled (tick environment w) = unhandled w.
Proof.
  destruct (tick_frame environment w) as [_ [_ [Hf [Hu [Hs Hd]]]]].
  repeat split; try assumption; apply Hs.
Qed.

(** X11 - No news, no message.  A tick whose fetch returns a sample
    and whose decision is no trigger makes no delivery attempt,
    whatever the state of the transport, logs nothing and arms the
    timer. *)
Theorem healthy_tick_is_silent (environment : Environment) (w : World)
    (s : UserStatus) :
  marketStates w (fetched w) = Returned s ->
  fst (evaluate environment (engine w) s) = None ->
  delivered (tick environment w) = delivered w
  /\ sendCalls (tick environment w) = sendCalls w
  /\ logged (tick environment w) = logged w
  /\ pendingTimers (tick environment w) = S (pendingTimers w).
Proof.
  intros Es Et. rewrite (tick_silent environment w s Es Et).
  repeat split.
Qed.

Lemma healthy_tick_is_silent_witness :
  delivered
    (tick defaultEnvironment
          (initialWorld (fun _ => Returned (sample (dec 30 1)))
                        (fun _ => Some "offline")))
  = [].
Proof.
  exact (proj1 (healthy_tick_is_silent defaultEnvironment
                  (initialWorld (fun _ => Returned (sample (dec 30 1)))
                                (fun _ => Some "offline"))
                  (sample (dec 30 1)) eq_refl eq_refl)).
Defined.

(** X12 - A fired trigger reaches the operator.  When the fetch
    returns a sample, a trigger fires and the transport accepts the
    delivery, exactly one message, the alert text against the old
    baseline, goes to the configured chat, and the timer is armed. *)
Theorem alert_is_delivered (environment : Environment) (w : World)
    (s : UserStatus) (t : string) :
  marketStates w (fetched w) = Returned s ->
  fst (evaluate environment (engine w) s) = Some t ->
  transport w (sendCalls w) = None ->
  delivered (tick environment w)
  = (delivered w
     ++ [(TELEGRAM_BOT_CHAT_ID environment,
          alertText environment t s (previousStatus w))])%list
  /\ sendCalls (tick environment w) = S (sendCalls w)
  /\ logged (tick environment w) = logged w
  /\ pendingTimers (tick environment w) = S (pendingTimers w).
Proof.
  intros Es Et Ht. rewrite (tick_alert environment w s t Es Et Ht).
  repeat split.
Qed.

Lemma alert_is_delivered_witness :
  List.length
    (delivered
       (tick defaultEnvironment
             (initialWorld (fun _ => Returned (sample (dec 10 1)))
                           (fun _ => None))))
  = 1%nat.
Proof.
  rewrite (proj1 (alert_is_delivered defaultEnvironment
                    (initialWorld (fun _ => Returned (sample (dec 10 1)))
                                  (fun _ => None))
                    (sample (dec 10 1)) CriticalLevel
                    eq_refl eq_refl eq_refl)).
  reflexivity.
Defined.

(** X13 - The engine advances whatever the delivery does.  After a
    tick whose fetch returned a sample, the baseline is that sample
    and the latch is the one the decision left, also when the alert
    or the error note was rejected. *)
Theorem engine_advances_whatever_delivery_does (environment : Environment)
    (w : World) (s : UserStatus) :
  marketStates w (fetched w) = Returned s ->
  engine (tick environment w) = snd (evaluate environment (engine w) s)
  /\ previousStatus (tick environment w) = s.
Proof.
  intros Es.
  pose proof (tick_engine environment w s Es) as H.
  split; [exact H|].
  change (fst (engine (tick environment w)) = s). rewrite H.
  unfold evaluate. destruct (getAlertTrigger _ _ _). reflexivity.
Qed.

Lemma engine_advances_whatever_delivery_does_witness :
  engine
    (tick defaultEnvironment
          (initialWorld (fun _ => Returned (sample (dec 20 1)))
                        (fun _ => Some "offline")))
  = (sample (dec 20 1), true).
Proof.
  exact (proj1 (engine_advances_whatever_delivery_does defaultEnvironment
                  (initialWorld (fun _ => Returned (sample (dec 20 1)))
                                (fun _ => Some "offline"))
                  (sample (dec 20 1)) eq_refl)).
Defined.

(** X14 - A lost warning is not repeated.  If [WarningLevel] fires and
    its delivery is rejected (the error note goes out instead), the
    latch is set all the same: a following WARNING sample produces no
    message and no delivery attempt. *)
Theorem lost_warning_is_not_repeated (environment : Environment) (w : World)
    (s1 s2 : UserStatus) (e : string) :
  marketStates w (fetched w) = Returned s1 ->
  marketStates w (S (fetched w)) = Returned s2 ->
  fst (evaluate environment (engine w) s1) = Some WarningLevel ->
  classifies environment WARNING s2 = true ->
  transport w (sendCalls w) = Some e ->
  transport w (S (sendCalls w)) = None ->
  let w1 := tick environment w in
  let w2 := tick environment w1 in
  delivered w1
  = (delivered w
     ++ [(TELEGRAM_BOT_CHAT_ID environment, getErrorMessage e "check")])%list
  /\ warningWasSent w1 = true
  /\ delivered w2 = delivered w1
  /\ sendCalls w2 = sendCalls w1
  /\ warningWasSent w2 = true.
Proof.
  intros E1 E2 Ht Hc H0 H1 w1 w2.
  destruct (tick_recovers_failed_alert environment w s1 WarningLevel e
              E1 Ht H0 H1) as [_ Hd].
  pose proof (tick_engine environment w s1 E1) as He1. fold w1 in He1, Hd.
  destruct (warning_level_sets_latch environment (engine w) s1 Ht)
    as [_ Hl].
  assert (Hp1 : previousStatus w1 = s1).
  { change (fst (engine w1) = s1). rewrite He1.
    unfold evaluate. destruct (getAlertTrigger _ _ _). reflexivity. }
  assert (Hl1 : warningWasSent w1 = true).
  { change (snd (engine w1) = true). rewrite He1. exact Hl. }
  destruct (tick_frame environment w) as [Hm [_ [Hf _]]].
  fold w1 in Hm, Hf.
  assert (Hpresent : present s1 = true).
  { destruct (evaluate_cases environment (engine w) s1)
      as [[_ [_ E]]|[[_ E]|[[_ [Hx E]]|[[_ [Hx E]]|[h [p [Eh [_ [_ E]]]]]]]]];
      rewrite E in Ht; cbn [fst] in Ht;
      try discriminate Ht;
      try exact (classifies_present _ _ _ Hx).
    unfold present. rewrite Eh. reflexivity. }
  assert (Es2 : marketStates w1 (fetched w1) = Returned s2)
    by (rewrite Hm, Hf; exact E2).
  assert (Ev2 : evaluate environment (engine w1) s2 = (None, (s2, true))).
  { unfold engine. rewrite Hp1, Hl1.
    exact (warning_step environment s1 s2 true Hpresent Hc). }
  assert (Et2 : fst (evaluate environment (engine w1) s2) = None)
    by (rewrite Ev2; reflexivity).
  split; [exact Hd|]. split; [exact Hl1|].
  unfold w2. rewrite (tick_silent environment w1 s2 Es2 Et2).
  rewrite Ev2. repeat split.
Qed.

Lemma lost_warning_is_not_repeated_witness :
  delivered
    (tick defaultEnvironment
       (tick defaultEnvironment
          (initialWorld (fun _ => Returned (sample (dec 20 1)))
                        (fun k => match k with
                                  | O => Some "offline"
                                  | S _ => None
                                  end))))
  = [("operator", getErrorMessage "offline" "check")].
Proof.
  destruct (lost_warning_is_not_repeated defaultEnvironment
              (initialWorld (fun _ => Returned (sample (dec 20 1)))
                            (fun k => match k with
                                      | O => Some "offline"
                                      | S _ => None
                                      end))
              (sample (dec 20 1)) (sample (dec 20 1)) "offline"
              eq_refl eq_refl eq_refl eq_refl eq_refl eq_refl)
    as [H1 [_ [H2 _]]].
  rewrite H2, H1. reflexivity.
Defined.

(** X15 - A failed fetch keeps the baseline.  When the fetch throws,
    the tick leaves [previousStatus] and the latch as they were, so
    the next sample is compared with the last one fetched before the
    outage; when the transport accepts it, the error note for flow
    [check] is delivered and the timer is armed. *)
Theorem failed_fetch_keeps_baseline (environment : Environment) (w : World)
    (e : string) :
  marketStates w (fetched w) = Thrown e ->
  engine (tick environment w) = engine w
  /\ (transport w (sendCalls w) = None ->
      delivered (tick environment w)
      = (delivered w
         ++ [(TELEGRAM_BOT_CHAT_ID environment,
              getErrorMessage e "check")])%list
      /\ pendingTimers (tick environment w) = S (pendingTimers w)).
Proof.
  intros Es. rewrite tick_unfold.
  rewrite (getAlertMessage_thrown environment w e Es).
  unfold sendMessage; cbn [transport sendCalls].
  destruct (transport w (sendCalls w)) as [e2|].
  - split; [reflexivity|]. intros H; discriminate H.
  - split; [reflexivity|]. intros _. split; reflexivity.
Qed.

Lemma failed_fetch_keeps_baseline_witness :
  engine (tick defaultEnvironment
               (initialWorld (fun _ => Thrown "timeout") (fun _ => None)))
  = initialEngine.
Proof.
  exact (proj1 (failed_fetch_keeps_baseline defaultEnvironment
                  (initialWorld (fun _ => Thrown "timeout") (fun _ => None))
                  "timeout" eq_refl)).
Defined.

(** ** More on the status command *)

(** X21 - One attempt per status command.  The handler always returns:
    it makes exactly one delivery attempt and logs nothing; a failed
    fetch is answered with the error note for flow [status]; a
    rejected delivery is neither retried nor caught (neither call of
    [context.sendMessage] is awaited). *)
Theorem status_command_attempts (environment : Environment) (chat : string)
    (w : World) :
  fst (statusCommand environment chat w) = Returned tt
  /\ sendCalls (snd (statusCommand environment chat w)) = S (sendCalls w)
  /\ logged (snd (statusCommand environment chat w)) = logged w
  /\ (forall e, marketStates w (fetched w) = Thrown e ->
                transport w (sendCalls w) = None ->
                delivered (snd (statusCommand environment chat w))
                = (delivered w ++ [(chat, getErrorMessage e "status")])%list)
  /\ (forall e, transport w (sendCalls w) = Some e ->
                delivered (snd (statusCommand environment chat w))
                = delivered w
                /\ unhandled (snd (statusCommand environment chat w))
                   = (unhandled w ++ [e])%list).
Proof.
  unfold statusCommand, tryCatch, getStatusMessage, bind, ret,
    getUserStatus, sendMessage_detached, sendMessage.
  cbn [marketStates fetched transport sendCalls delivered unhandled logged
       pendingTimers previousStatus warningWasSent].
  destruct (marketStates w (fetched w)) as [s|e];
    cbn [marketStates fetched transport sendCalls delivered unhandled logged
         pendingTimers previousStatus warningWasSent];
    destruct (transport w (sendCalls w)) as [e'|];
    cbn [fst snd marketStates fetched transport sendCalls delivered unhandled
         logged pendingTimers previousStatus warningWasSent];
    (split; [reflexivity|]); (split; [reflexivity|]);
    (split; [reflexivity|]); split;
    intros x Hx; try discriminate Hx;
    try (intros Hy; try discriminate Hy);
    try (injection Hx as <-); try (split; reflexivity); reflexivity.
Qed.
